(** * TaskLoop / BlockClash verification portal

    A shallow embedding of the client-side logic of the verification wizard
    (VerificationPage), the support chat widget (ChatWindow) and the operator
    dashboard (AdminDashboard), together with the part of the hosted store
    they talk to (the tables verification_sessions and chat_messages of the
    SQL schema).

    Conventions of the embedding:
    - a JavaScript string is a [string]; every [ascii] stands for one code
      unit below 256;
    - a timestamp is a [Z] (milliseconds), the ISO rendering used by the
      code is order preserving and is left out;
    - an async handler is a state transformer of the whole [World]; the
      values it reads from its render closure (React state captured when
      the handler was created) are explicit arguments;
    - every remote call consults the schedule [net] of the world for its
      outcome, and every effect is appended to the chronological [log];
    - a handler runs to its end before the next operation starts: what
      other parties do while it awaits is not interleaved, and a state
      setter takes effect where the handler calls it. *)

From Stdlib Require Import List String Ascii ZArith Bool Arith Lia DecimalString.
From Stdlib Require Import Sorted Permutation.
Import ListNotations.
Open Scope string_scope.

(* ------------------------------------------------------------------ *)
(** ** JavaScript values used by the handlers *)

(** The value of [correctCode && formData.code === correctCode]: either the
    (falsy) left string or the boolean on the right. *)
Inductive JsVal : Type :=
| JStr (s : string)
| JBool (b : bool).

Definition truthy_string (s : string) : bool := negb (s =? "").

Definition truthy (v : JsVal) : bool :=
  match v with
  | JStr s => truthy_string s
  | JBool b => b
  end.

(** [a && b] for a string [a] and a boolean [b]. *)
Definition js_and (a : string) (b : bool) : JsVal :=
  if truthy_string a then JBool b else JStr a.

(** [x || d] for a possibly missing string [x]. *)
Definition js_or_default (x : option string) (d : string) : string :=
  match x with
  | Some s => if truthy_string s then s else d
  | None => d
  end.

(** White space removed by [String.prototype.trim], for code units below
    256: TAB, LF, VT, FF, CR, SPACE and NBSP. *)
Definition js_whitespace (c : ascii) : bool :=
  let n := nat_of_ascii c in
  ((9 <=? n)%nat && (n <=? 13)%nat) || (n =? 32)%nat || (n =? 160)%nat.

Fixpoint trim_start (l : list ascii) : list ascii :=
  match l with
  | [] => []
  | c :: r => if js_whitespace c then trim_start r else l
  end.

Definition trim (s : string) : string :=
  string_of_list_ascii
    (rev (trim_start (rev (trim_start (list_ascii_of_string s))))).

(** [String.prototype.toLowerCase] on code units below 256: A-Z and the
    Latin-1 capitals other than the multiplication sign move up by 32. *)
Definition lower_unit (c : ascii) : ascii :=
  let n := nat_of_ascii c in
  if ((65 <=? n)%nat && (n <=? 90)%nat) ||
     ((192 <=? n)%nat && (n <=? 222)%nat && negb (n =? 215)%nat)
  then ascii_of_nat (n + 32) else c.

Fixpoint toLowerCase (s : string) : string :=
  match s with
  | EmptyString => EmptyString
  | String c r => String (lower_unit c) (toLowerCase r)
  end.

(** [s.includes(sub)] *)
Fixpoint includes (s sub : string) : bool :=
  String.prefix sub s ||
  match s with
  | EmptyString => false
  | String _ r => includes r sub
  end.

(* ------------------------------------------------------------------ *)
(** ** The hosted store (supabase-schema) *)

Inductive Status : Type := pending | verified | rejected.
Inductive Sender : Type := user | admin | system.
Inductive MessageType : Type := text | code_attempt.

Definition Status_eqb (a b : Status) : bool :=
  match a, b with
  | pending, pending | verified, verified | rejected, rejected => true
  | _, _ => false
  end.

Definition MessageType_eqb (a b : MessageType) : bool :=
  match a, b with
  | text, text | code_attempt, code_attempt => true
  | _, _ => false
  end.

(** interface VerificationSession / table verification_sessions *)
Record VerificationSession : Type := mkSession {
  id : string;
  mc_name : string;
  email : string;
  code : string;
  status : Status;
  created_at : Z;
  updated_at : Z;
  is_online : bool
}.

(** table chat_messages (after the migration: message_type, is_correct).
    [m_is_correct] holds the value as the insert payload carried it. *)
Record ChatMessage : Type := mkMessage {
  m_id : string;
  session_id : string;
  m_sender : Sender;
  m_message : string;
  message_type : MessageType;
  m_is_correct : option JsVal;
  m_created_at : Z
}.

Definition with_status (st : Status) (now : Z) (s : VerificationSession)
  : VerificationSession :=
  mkSession (id s) (mc_name s) (email s) (code s) st
            (created_at s) now (is_online s).

Definition with_code (c : string) (now : Z) (s : VerificationSession)
  : VerificationSession :=
  mkSession (id s) (mc_name s) (email s) c (status s)
            (created_at s) now (is_online s).

(** Stable insertion sort, the [.order(...)] of a query. *)
Fixpoint insert_by {A} (le : A -> A -> bool) (x : A) (l : list A) : list A :=
  match l with
  | [] => [x]
  | y :: r => if le x y then x :: l else y :: insert_by le x r
  end.

Fixpoint sort_by {A} (le : A -> A -> bool) (l : list A) : list A :=
  match l with
  | [] => []
  | x :: r => insert_by le x (sort_by le r)
  end.

(** [from('chat_messages').select('*').eq('session_id', sid)] with the
    optional [.neq('message_type', t)] and [.order('created_at', asc)]. *)
Definition select_messages (tbl : list ChatMessage) (sid : string)
    (neq : option MessageType) : list ChatMessage :=
  sort_by (fun a b => (m_created_at a <=? m_created_at b)%Z)
    (filter (fun m =>
               (session_id m =? sid) &&
               match neq with
               | Some t => negb (MessageType_eqb (message_type m) t)
               | None => true
               end) tbl).

(** [from('verification_sessions').select('*').order('created_at', desc)] *)
Definition select_sessions (tbl : list VerificationSession)
  : list VerificationSession :=
  sort_by (fun a b => (created_at b <=? created_at a)%Z) tbl.

(** [from('verification_sessions').select('code').eq('id', sid).single()]:
    a row only when exactly one matches. *)
Definition select_single (tbl : list VerificationSession) (sid : option string)
  : option VerificationSession :=
  match sid with
  | None => None
  | Some i =>
      match filter (fun s => id s =? i) tbl with
      | [s] => Some s
      | _ => None
      end
  end.

(* ------------------------------------------------------------------ *)
(** ** Component state (the [useState] and [useRef] cells) *)

(** State of [ChatWindow] (App.tsx). *)
Module Chat.

(** interface LocalMessage of App.tsx *)
Record LocalMessage : Type := mkLocal {
  id : string;
  sender : Sender;
  message : string;
  created_at : Z
}.

Record State : Type := mkState {
  messages : list LocalMessage;
  input : string;
  isConnected : bool;
  chatEnded : bool;
  channelRef : option string
}.

Definition init : State := mkState [] "" false false None.

Definition setMessages (f : list LocalMessage -> list LocalMessage) (s : State) :=
  mkState (f (messages s)) (input s) (isConnected s) (chatEnded s) (channelRef s).
Definition setInput (v : string) (s : State) :=
  mkState (messages s) v (isConnected s) (chatEnded s) (channelRef s).
Definition setIsConnected (v : bool) (s : State) :=
  mkState (messages s) (input s) v (chatEnded s) (channelRef s).
Definition setChatEnded (v : bool) (s : State) :=
  mkState (messages s) (input s) (isConnected s) v (channelRef s).
Definition setChannelRef (v : option string) (s : State) :=
  mkState (messages s) (input s) (isConnected s) (chatEnded s) v.

End Chat.

(** State of [VerificationPage] (App.tsx). *)
Module Wizard.

Inductive Step : Type := welcome | form.

Record FormData : Type := mkForm {
  mcName : string;
  email : string;
  code : string
}.

Record State : Type := mkState {
  step : Step;
  formStep : nat;
  formData : FormData;
  sessionId : option string;
  isVerifying : bool;
  isProcessing : bool;
  isSuccess : bool;
  isChatOpen : bool;
  unreadCount : nat;
  codeError : bool
}.

Definition init : State :=
  mkState welcome 0 (mkForm "" "" "") None false false false false 0 false.

Definition setStep (v : Step) (s : State) :=
  mkState v (formStep s) (formData s) (sessionId s) (isVerifying s)
          (isProcessing s) (isSuccess s) (isChatOpen s) (unreadCount s) (codeError s).
Definition setFormStep (f : nat -> nat) (s : State) :=
  mkState (step s) (f (formStep s)) (formData s) (sessionId s) (isVerifying s)
          (isProcessing s) (isSuccess s) (isChatOpen s) (unreadCount s) (codeError s).
Definition setFormData (f : FormData -> FormData) (s : State) :=
  mkState (step s) (formStep s) (f (formData s)) (sessionId s) (isVerifying s)
          (isProcessing s) (isSuccess s) (isChatOpen s) (unreadCount s) (codeError s).
Definition setSessionId (v : option string) (s : State) :=
  mkState (step s) (formStep s) (formData s) v (isVerifying s)
          (isProcessing s) (isSuccess s) (isChatOpen s) (unreadCount s) (codeError s).
Definition setIsVerifying (v : bool) (s : State) :=
  mkState (step s) (formStep s) (formData s) (sessionId s) v
          (isProcessing s) (isSuccess s) (isChatOpen s) (unreadCount s) (codeError s).
Definition setIsProcessing (v : bool) (s : State) :=
  mkState (step s) (formStep s) (formData s) (sessionId s) (isVerifying s)
          v (isSuccess s) (isChatOpen s) (unreadCount s) (codeError s).
Definition setIsSuccess (v : bool) (s : State) :=
  mkState (step s) (formStep s) (formData s) (sessionId s) (isVerifying s)
          (isProcessing s) v (isChatOpen s) (unreadCount s) (codeError s).
Definition setIsChatOpen (v : bool) (s : State) :=
  mkState (step s) (formStep s) (formData s) (sessionId s) (isVerifying s)
          (isProcessing s) (isSuccess s) v (unreadCount s) (codeError s).
Definition setUnreadCount (f : nat -> nat) (s : State) :=
  mkState (step s) (formStep s) (formData s) (sessionId s) (isVerifying s)
          (isProcessing s) (isSuccess s) (isChatOpen s) (f (unreadCount s)) (codeError s).
Definition setCodeError (v : bool) (s : State) :=
  mkState (step s) (formStep s) (formData s) (sessionId s) (isVerifying s)
          (isProcessing s) (isSuccess s) (isChatOpen s) (unreadCount s) v.

(** [{...prev, code: v}] and the two sibling fields *)
Definition withCode (v : string) (d : FormData) := mkForm (mcName d) (email d) v.
Definition withEmail (v : string) (d : FormData) := mkForm (mcName d) v (code d).
Definition withMcName (v : string) (d : FormData) := mkForm v (email d) (code d).

End Wizard.

(** State of [AdminDashboard] (AdminDashboard.tsx). *)
Module Dash.

(** interface LocalMessage of AdminDashboard.tsx; the two optional fields
    are [None] when the property is absent. *)
Record LocalMessage : Type := mkLocal {
  id : string;
  sender : Sender;
  message : string;
  created_at : Z;
  message_type : option MessageType;
  is_correct : option JsVal
}.

Inductive Filter : Type := all | only (s : Status).

Record State : Type := mkState {
  sessions : list VerificationSession;
  selectedSession : option VerificationSession;
  messages : list LocalMessage;
  newMessage : string;
  searchTerm : string;
  filter : Filter;
  newSessionAlert : bool;
  channelRef : option string;
  codeInput : string
}.

Definition init : State := mkState [] None [] "" "" all false None "".

Definition setSessions (f : list VerificationSession -> list VerificationSession)
    (s : State) :=
  mkState (f (sessions s)) (selectedSession s) (messages s) (newMessage s)
          (searchTerm s) (filter s) (newSessionAlert s) (channelRef s) (codeInput s).
Definition setSelectedSession
    (f : option VerificationSession -> option VerificationSession) (s : State) :=
  mkState (sessions s) (f (selectedSession s)) (messages s) (newMessage s)
          (searchTerm s) (filter s) (newSessionAlert s) (channelRef s) (codeInput s).
Definition setMessages (f : list LocalMessage -> list LocalMessage) (s : State) :=
  mkState (sessions s) (selectedSession s) (f (messages s)) (newMessage s)
          (searchTerm s) (filter s) (newSessionAlert s) (channelRef s) (codeInput s).
Definition setNewMessage (v : string) (s : State) :=
  mkState (sessions s) (selectedSession s) (messages s) v
          (searchTerm s) (filter s) (newSessionAlert s) (channelRef s) (codeInput s).
Definition setNewSessionAlert (v : bool) (s : State) :=
  mkState (sessions s) (selectedSession s) (messages s) (newMessage s)
          (searchTerm s) (filter s) v (channelRef s) (codeInput s).
Definition setChannelRef (v : option string) (s : State) :=
  mkState (sessions s) (selectedSession s) (messages s) (newMessage s)
          (searchTerm s) (filter s) (newSessionAlert s) v (codeInput s).
Definition setSearchTerm (v : string) (s : State) :=
  mkState (sessions s) (selectedSession s) (messages s) (newMessage s)
          v (filter s) (newSessionAlert s) (channelRef s) (codeInput s).
Definition setFilter (v : Filter) (s : State) :=
  mkState (sessions s) (selectedSession s) (messages s) (newMessage s)
          (searchTerm s) v (newSessionAlert s) (channelRef s) (codeInput s).
Definition setCodeInput (v : string) (s : State) :=
  mkState (sessions s) (selectedSession s) (messages s) (newMessage s)
          (searchTerm s) (filter s) (newSessionAlert s) (channelRef s) v.

End Dash.

(* ------------------------------------------------------------------ *)
(** ** The world: store, environment, effect log and the three views *)

(** Payload of a broadcast event. *)
Inductive Payload : Type :=
| PMessage (m : Chat.LocalMessage)
| PCodeAttempt (code : string) (is_correct : JsVal)
| PEmpty.

(** Callbacks handed to [setTimeout]. *)
Inductive Callback : Type :=
| CbAlertOff          (* () => setNewSessionAlert(false) *)
| CbProcessingDone.   (* () => { setIsProcessing(false); setFormStep(2) } *)

(** The object handed to [from('chat_messages').insert(...)]; an absent
    property is [None] and takes the column default. *)
Record MessageInsert : Type := mkInsert {
  i_id : option string;
  i_session_id : option string;
  i_sender : Sender;
  i_message : string;
  i_message_type : option MessageType;
  i_is_correct : option JsVal
}.

(** One entry per effect, in the order the handler performs them. [ok] is
    the outcome of a remote call as the client sees it. *)
Inductive Event : Type :=
| EvSet (component setter : string)
| EvSelect (table : string) (ok : bool)
| EvInsertSession (e : string) (ok : bool)
| EvInsertMessage (p : MessageInsert) (ok : bool)
| EvUpdateStatus (key : option string) (st : Status) (ok : bool)
| EvUpdateCode (key : string) (c : string) (ok : bool)
| EvDelete (table : string) (key : string) (ok : bool)
| EvBroadcast (channel event : string) (p : Payload) (ok : bool)
| EvSleep (ms : Z)
| EvSetTimeout (ms : Z) (cb : Callback).

Record World : Type := mkWorld {
  verification_sessions : list VerificationSession;
  chat_messages : list ChatMessage;
  clock : Z;                      (* Date.now() and NOW() *)
  fresh : nat;                    (* supply of UUIDs *)
  net : list bool;                (* outcomes of the coming remote calls *)
  log : list Event;
  timers : list (Z * Callback);   (* pending setTimeout callbacks *)
  configured : bool;              (* isSupabaseConfigured() *)
  wizard : Wizard.State;
  chat : Chat.State;
  dash : Dash.State
}.

Definition set_sessions_tbl (v : list VerificationSession) (w : World) :=
  mkWorld v (chat_messages w) (clock w) (fresh w) (net w) (log w) (timers w)
          (configured w) (wizard w) (chat w) (dash w).
Definition set_messages_tbl (v : list ChatMessage) (w : World) :=
  mkWorld (verification_sessions w) v (clock w) (fresh w) (net w) (log w) (timers w)
          (configured w) (wizard w) (chat w) (dash w).
Definition set_clock (v : Z) (w : World) :=
  mkWorld (verification_sessions w) (chat_messages w) v (fresh w) (net w) (log w)
          (timers w) (configured w) (wizard w) (chat w) (dash w).
Definition set_fresh (v : nat) (w : World) :=
  mkWorld (verification_sessions w) (chat_messages w) (clock w) v (net w) (log w)
          (timers w) (configured w) (wizard w) (chat w) (dash w).
Definition set_net (v : list bool) (w : World) :=
  mkWorld (verification_sessions w) (chat_messages w) (clock w) (fresh w) v (log w)
          (timers w) (configured w) (wizard w) (chat w) (dash w).
Definition set_log (v : list Event) (w : World) :=
  mkWorld (verification_sessions w) (chat_messages w) (clock w) (fresh w) (net w) v
          (timers w) (configured w) (wizard w) (chat w) (dash w).
Definition set_timers (v : list (Z * Callback)) (w : World) :=
  mkWorld (verification_sessions w) (chat_messages w) (clock w) (fresh w) (net w)
          (log w) v (configured w) (wizard w) (chat w) (dash w).
Definition set_wizard (v : Wizard.State) (w : World) :=
  mkWorld (verification_sessions w) (chat_messages w) (clock w) (fresh w) (net w)
          (log w) (timers w) (configured w) v (chat w) (dash w).
Definition set_chat (v : Chat.State) (w : World) :=
  mkWorld (verification_sessions w) (chat_messages w) (clock w) (fresh w) (net w)
          (log w) (timers w) (configured w) (wizard w) v (dash w).
Definition set_dash (v : Dash.State) (w : World) :=
  mkWorld (verification_sessions w) (chat_messages w) (clock w) (fresh w) (net w)
          (log w) (timers w) (configured w) (wizard w) (chat w) v.

(** The state monad of the handlers. *)
Definition M (A : Type) : Type := World -> A * World.

Definition ret {A} (a : A) : M A := fun w => (a, w).

Definition bind {A B} (m : M A) (f : A -> M B) : M B :=
  fun w => f (fst (m w)) (snd (m w)).

Notation "x <- m ;; k" := (bind m (fun x => k))
  (at level 61, m at next level, right associativity).
Notation "m ;; k" := (bind m (fun _ => k))
  (at level 61, right associativity).

(** Run a handler for its final world. *)
Definition exec {A} (m : M A) (w : World) : World := snd (m w).

Definition emit (e : Event) : M unit :=
  fun w => (tt, set_log (log w ++ [e])%list w).

(** Outcome of the next remote call; an exhausted schedule means success. *)
Definition remote : M bool :=
  fun w => (hd true (net w), set_net (tl (net w)) w).

Definition now : M Z := fun w => (clock w, w).

Definition uuid_of (n : nat) : string :=
  "uuid-" ++ DecimalString.NilEmpty.string_of_uint (Nat.to_uint n).

Arguments uuid_of : simpl never.
Arguments trim : simpl never.

(** [crypto.randomUUID()] and [uuid_generate_v4()] *)
Definition randomUUID : M string :=
  fun w => (uuid_of (fresh w), set_fresh (S (fresh w)) w).

(** [await new Promise(resolve => setTimeout(resolve, ms))] *)
Definition sleep (ms : Z) : M unit :=
  fun w => (tt, set_log (log w ++ [EvSleep ms])%list (set_clock (clock w + ms)%Z w)).

(** [setTimeout(cb, ms)] *)
Definition setTimeout (cb : Callback) (ms : Z) : M unit :=
  fun w => (tt, set_log (log w ++ [EvSetTimeout ms cb])%list
                  (set_timers (timers w ++ [((clock w + ms)%Z, cb)])%list w)).

(** A state setter of a component, logged under its name. *)
Definition set_state_wizard (name : string) (f : Wizard.State -> Wizard.State) : M unit :=
  fun w => (tt, set_log (log w ++ [EvSet "VerificationPage" name])%list
                  (set_wizard (f (wizard w)) w)).
Definition set_state_chat (name : string) (f : Chat.State -> Chat.State) : M unit :=
  fun w => (tt, set_log (log w ++ [EvSet "ChatWindow" name])%list
                  (set_chat (f (chat w)) w)).
Definition set_state_dash (name : string) (f : Dash.State -> Dash.State) : M unit :=
  fun w => (tt, set_log (log w ++ [EvSet "AdminDashboard" name])%list
                  (set_dash (f (dash w)) w)).

(* ------------------------------------------------------------------ *)
(** ** Remote calls (supabase client) *)

Definition session_exists (tbl : list VerificationSession) (sid : string) : bool :=
  existsb (fun s => id s =? sid) tbl.

Definition message_exists (tbl : list ChatMessage) (mid : string) : bool :=
  existsb (fun m => m_id m =? mid) tbl.

(** Constraints of chat_messages: session_id NOT NULL with a foreign key to
    verification_sessions, id a primary key. *)
Definition insert_accepted (w : World) (p : MessageInsert) : bool :=
  match i_session_id p with
  | None => false
  | Some sid =>
      session_exists (verification_sessions w) sid &&
      match i_id p with
      | Some mid => negb (message_exists (chat_messages w) mid)
      | None => true
      end
  end.

Definition message_row (p : MessageInsert) (sid mid : string) (t : Z) : ChatMessage :=
  mkMessage mid sid (i_sender p) (i_message p)
            (match i_message_type p with Some k => k | None => text end)
            (i_is_correct p) t.

(** Every remote call takes the next outcome of the schedule, logs itself
    with the outcome the client sees, and changes the store only when that
    outcome is a success. *)
Definition called (e : Event) (w : World) : World :=
  set_log (log w ++ [e])%list (set_net (tl (net w)) w).

(** [await supabase.from('chat_messages').insert(p)]; the id, when the
    payload has none, and created_at are the column defaults. *)
Definition db_insert_message (p : MessageInsert) : M bool :=
  fun w =>
    let ok := hd true (net w) && insert_accepted w p in
    let mid := match i_id p with Some i => i | None => uuid_of (fresh w) end in
    let tbl :=
      match i_session_id p with
      | Some sid =>
          if ok then (chat_messages w ++ [message_row p sid mid (clock w)])%list
          else chat_messages w
      | None => chat_messages w
      end in
    (ok, set_messages_tbl tbl
           (set_fresh (S (fresh w)) (called (EvInsertMessage p ok) w))).

(** [from('verification_sessions').insert({email, code, status}).select().single()] *)
Definition db_insert_session (e c : string) (st : Status)
  : M (option VerificationSession) :=
  fun w =>
    let ok := hd true (net w) in
    let row := mkSession (uuid_of (fresh w)) "" e c st (clock w) (clock w) false in
    (if ok then Some row else None,
     set_sessions_tbl
       (if ok then (verification_sessions w ++ [row])%list else verification_sessions w)
       (set_fresh (S (fresh w)) (called (EvInsertSession e ok) w))).

Definition key_matches (key : option string) (s : VerificationSession) : bool :=
  match key with
  | Some k => id s =? k
  | None => false
  end.

(** [from('verification_sessions').update({status, updated_at}).eq('id', key)] *)
Definition db_update_status (key : option string) (st : Status) : M unit :=
  fun w =>
    let ok := hd true (net w) in
    (tt, set_sessions_tbl
           (if ok
            then map (fun s => if key_matches key s
                               then with_status st (clock w) s else s)
                     (verification_sessions w)
            else verification_sessions w)
           (called (EvUpdateStatus key st ok) w)).

(** [from('verification_sessions').update({code, updated_at}).eq('id', key)] *)
Definition db_update_code (key : string) (c : string) : M unit :=
  fun w =>
    let ok := hd true (net w) in
    (tt, set_sessions_tbl
           (if ok
            then map (fun s => if id s =? key then with_code c (clock w) s else s)
                     (verification_sessions w)
            else verification_sessions w)
           (called (EvUpdateCode key c ok) w)).

(** [from('chat_messages').delete().eq('session_id', sid)] *)
Definition db_delete_messages (sid : string) : M unit :=
  fun w =>
    let ok := hd true (net w) in
    (tt, set_messages_tbl
           (if ok
            then filter (fun m => negb (session_id m =? sid)) (chat_messages w)
            else chat_messages w)
           (called (EvDelete "chat_messages" sid ok) w)).

(** [from('verification_sessions').delete().eq('id', sid)]; the foreign key
    of chat_messages is ON DELETE CASCADE. *)
Definition db_delete_session (sid : string) : M unit :=
  fun w =>
    let ok := hd true (net w) in
    (tt, set_messages_tbl
           (if ok
            then filter (fun m => negb (session_id m =? sid)) (chat_messages w)
            else chat_messages w)
           (set_sessions_tbl
              (if ok
               then filter (fun s => negb (id s =? sid)) (verification_sessions w)
               else verification_sessions w)
              (called (EvDelete "verification_sessions" sid ok) w))).

(** The [data] of a select: [None] when the request failed. *)
Definition db_select_messages (sid : string) (neq : option MessageType)
  : M (option (list ChatMessage)) :=
  fun w =>
    let ok := hd true (net w) in
    (if ok then Some (select_messages (chat_messages w) sid neq) else None,
     called (EvSelect "chat_messages" ok) w).

Definition db_select_sessions : M (option (list VerificationSession)) :=
  fun w =>
    let ok := hd true (net w) in
    (if ok then Some (select_sessions (verification_sessions w)) else None,
     called (EvSelect "verification_sessions" ok) w).

Definition db_select_session (sid : option string)
  : M (option VerificationSession) :=
  fun w =>
    let ok := hd true (net w) in
    (if ok then select_single (verification_sessions w) sid else None,
     called (EvSelect "verification_sessions" ok) w).

(** [channel.send({type: 'broadcast', event, payload})], not awaited. *)
Definition channel_send (channel event : string) (p : Payload) : M unit :=
  fun w => (tt, called (EvBroadcast channel event p (hd true (net w))) w).

(** The template literal [`chat-${sessionId}`]. *)
Definition chat_channel (sid : option string) : string :=
  "chat-" ++ match sid with Some s => s | None => "null" end.

Definition truthy_id (sid : option string) : bool :=
  match sid with
  | Some s => truthy_string s
  | None => false
  end.

(* ------------------------------------------------------------------ *)
(** ** ChatWindow (App.tsx) *)

Module ChatWindow.

Definition toLocal (m : ChatMessage) : Chat.LocalMessage :=
  Chat.mkLocal (m_id m) (m_sender m) (m_message m) (m_created_at m).

(** The rows the user-side load asks for. *)
Definition loadQuery (tbl : list ChatMessage) (sessionId : string) : list ChatMessage :=
  select_messages tbl sessionId (Some code_attempt).

Definition loadMessages (sessionId : string) : M unit :=
  data <- db_select_messages sessionId (Some code_attempt) ;;
  match data with
  | Some rows =>
      set_state_chat "setMessages" (Chat.setMessages (fun _ => map toLocal rows))
  | None => ret tt
  end.

(** The effect on [sessionId]: load the history, open the channel. *)
Definition effect (sessionId : option string) : M unit :=
  if negb (truthy_id sessionId) then ret tt
  else
    match sessionId with
    | Some sid =>
        loadMessages sid ;;
        subscribed <- remote ;;
        (if subscribed
         then set_state_chat "setIsConnected" (Chat.setIsConnected true)
         else ret tt) ;;
        fun w => (tt, set_chat (Chat.setChannelRef (Some (chat_channel sessionId))
                                                   (chat w)) w)
    | None => ret tt
    end.

(** Broadcast receivers. *)
Definition on_new_message (payload : Chat.LocalMessage) : M unit :=
  set_state_chat "setMessages" (Chat.setMessages (fun prev => prev ++ [payload])%list).

Definition on_chat_ended : M unit :=
  set_state_chat "setChatEnded" (Chat.setChatEnded true).

(** [handleSend(text)]; [sessionId] and [chatEnded] come from the render
    the handler belongs to. *)
Definition handleSend (sessionId : option string) (chatEnded : bool)
    (text : string) : M unit :=
  if negb (truthy_string (trim text)) || negb (truthy_id sessionId) || chatEnded
  then ret tt
  else
    i <- randomUUID ;;
    t <- now ;;
    let newMessage := Chat.mkLocal i user (trim text) t in
    set_state_chat "setMessages"
      (Chat.setMessages (fun prev => prev ++ [newMessage])%list) ;;
    set_state_chat "setInput" (Chat.setInput "") ;;
    db_insert_message (mkInsert (Some i) sessionId user (trim text) None None) ;;
    ref <- (fun w => (Chat.channelRef (chat w), w)) ;;
    match ref with
    | Some ch => channel_send ch "new-message" (PMessage newMessage)
    | None => ret tt
    end.

(** The send button and the Enter key: [handleSend(input)]. *)
Definition click_send : M unit :=
  fun w => handleSend (Wizard.sessionId (wizard w)) (Chat.chatEnded (chat w))
                      (Chat.input (chat w)) w.

End ChatWindow.

(* ------------------------------------------------------------------ *)
(** ** VerificationPage (App.tsx) *)

Module VerificationPage.

Inductive Field : Type := f_mcName | f_email | f_code.

(** The [steps] table: title and field of each form step. *)
Definition steps : list (string * Field) :=
  [("Identity", f_mcName); ("Contact", f_email); ("Verify", f_code)].

Definition field_value (f : Field) (d : Wizard.FormData) : string :=
  match f with
  | f_mcName => Wizard.mcName d
  | f_email => Wizard.email d
  | f_code => Wizard.code d
  end.

Definition createSessionWithEmail (e : string) : M (option string) :=
  data <- db_insert_session e "" pending ;;
  match data with
  | Some row =>
      set_state_wizard "setSessionId" (Wizard.setSessionId (Some (id row))) ;;
      ret (Some (id row))
  | None => ret None
  end.

Definition handleStartVerification : M unit :=
  set_state_wizard "setStep" (Wizard.setStep Wizard.form).

(** [handleSubmit]; [render] is the state of the render it was created in. *)
Definition handleSubmit (render : Wizard.State) : M unit :=
  let sessionId := Wizard.sessionId render in
  let submitted := Wizard.code (Wizard.formData render) in
  set_state_wizard "setIsVerifying" (Wizard.setIsVerifying true) ;;
  sessionData <- db_select_session sessionId ;;
  let correctCode := js_or_default (option_map code sessionData) "" in
  let isCorrect := js_and correctCode (submitted =? correctCode) in
  db_insert_message
    (mkInsert None sessionId system submitted (Some code_attempt) (Some isCorrect)) ;;
  channel_send (chat_channel sessionId) "code-attempt"
               (PCodeAttempt submitted isCorrect) ;;
  if truthy isCorrect then
    db_update_status sessionId verified ;;
    sleep 1000 ;;
    set_state_wizard "setIsVerifying" (Wizard.setIsVerifying false) ;;
    set_state_wizard "setCodeError" (Wizard.setCodeError false) ;;
    set_state_wizard "setIsSuccess" (Wizard.setIsSuccess true)
  else
    sleep 1000 ;;
    set_state_wizard "setIsVerifying" (Wizard.setIsVerifying false) ;;
    set_state_wizard "setCodeError" (Wizard.setCodeError true) ;;
    set_state_wizard "setFormData" (Wizard.setFormData (Wizard.withCode "")).

Definition handleNext (render : Wizard.State) : M unit :=
  if (Wizard.formStep render =? 0)%nat then
    set_state_wizard "setFormStep" (Wizard.setFormStep (fun _ => 1))
  else if (Wizard.formStep render =? 1)%nat then
    set_state_wizard "setIsProcessing" (Wizard.setIsProcessing true) ;;
    newSessionId <- createSessionWithEmail (Wizard.email (Wizard.formData render)) ;;
    if truthy_id newSessionId
    then setTimeout CbProcessingDone 30000
    else set_state_wizard "setIsProcessing" (Wizard.setIsProcessing false)
  else handleSubmit render.

(** The timeout callback of the email step. *)
Definition processing_done : M unit :=
  set_state_wizard "setIsProcessing" (Wizard.setIsProcessing false) ;;
  set_state_wizard "setFormStep" (Wizard.setFormStep (fun _ => 2)).

(** What the page shows. *)
Record FormView : Type := mkFormView {
  v_formStep : nat;
  v_field : Field;
  v_value : string;
  v_invalid_code : bool;      (* "Invalid code" and the contact-support link *)
  v_back : bool;
  v_next_disabled : bool
}.

Inductive View : Type :=
| SuccessView (mcName : string)
| WelcomeView
| ProcessingView
| Form (v : FormView).

(** The component body after the hooks; [None] when [steps[formStep]] is
    undefined and reading its fields throws. *)
Definition view (s : Wizard.State) : option View :=
  if Wizard.isSuccess s then Some (SuccessView (Wizard.mcName (Wizard.formData s)))
  else
    match Wizard.step s with
    | Wizard.welcome => Some WelcomeView
    | Wizard.form =>
        if Wizard.isProcessing s then Some ProcessingView
        else
          match nth_error steps (Wizard.formStep s) with
          | None => None
          | Some (_, f) =>
              let value := field_value f (Wizard.formData s) in
              Some (Form (mkFormView
                            (Wizard.formStep s) f value
                            (match f with
                             | f_code => Wizard.codeError s
                             | _ => false
                             end)
                            (0 <? Wizard.formStep s)%nat
                            (negb (truthy_string value) || Wizard.isVerifying s)))
          end
    end.

(** The Continue / Verify Code button. *)
Definition click_next : M unit :=
  fun w =>
    match view (wizard w) with
    | Some (Form v) =>
        if v_next_disabled v then (tt, w) else handleNext (wizard w) w
    | _ => (tt, w)
    end.

(** Typing into the field of the current step. *)
Definition type_field (f : Field) (v : string) : M unit :=
  match f with
  | f_code =>
      set_state_wizard "setCodeError" (Wizard.setCodeError false) ;;
      set_state_wizard "setFormData" (Wizard.setFormData (Wizard.withCode v))
  | f_email => set_state_wizard "setFormData" (Wizard.setFormData (Wizard.withEmail v))
  | f_mcName => set_state_wizard "setFormData" (Wizard.setFormData (Wizard.withMcName v))
  end.

End VerificationPage.

(* ------------------------------------------------------------------ *)
(** ** AdminDashboard (AdminDashboard.tsx) *)

Module AdminDashboard.

(** The parameter type ['verified' | 'rejected'] of [updateSessionStatus]. *)
Inductive Decision : Type := to_verified | to_rejected.

Definition decided (d : Decision) : Status :=
  match d with
  | to_verified => verified
  | to_rejected => rejected
  end.

(** The mapping of a loaded row: four properties, nothing else. *)
Definition toLocal (m : ChatMessage) : Dash.LocalMessage :=
  Dash.mkLocal (m_id m) (m_sender m) (m_message m) (m_created_at m) None None.

(** The rows the operator-side load asks for. *)
Definition loadQuery (tbl : list ChatMessage) (sessionId : string) : list ChatMessage :=
  select_messages tbl sessionId None.

(** [fetchSessions]; [sessions] is the list held by the render the closure
    was created in. *)
Definition fetchSessions (sessions : list VerificationSession) : M unit :=
  data <- db_select_sessions ;;
  match data with
  | Some rows =>
      (if (0 <? List.length sessions)%nat && (List.length sessions <? List.length rows)%nat
       then
         set_state_dash "setNewSessionAlert" (Dash.setNewSessionAlert true) ;;
         setTimeout CbAlertOff 3000
       else ret tt) ;;
      set_state_dash "setSessions" (Dash.setSessions (fun _ => rows))
  | None => ret tt
  end.

(** The mount effect has an empty dependency list: it runs once, after the
    first render, and both its direct call and the interval it installs use
    the [fetchSessions] of that render, whose [sessions] is the initial
    state. *)
Definition mount_sessions : list VerificationSession := Dash.sessions Dash.init.

Definition mount : M unit :=
  fun w => if configured w then fetchSessions mount_sessions w else (tt, w).

(** One firing of [setInterval(fetchSessions, 5000)]. *)
Definition interval_tick : M unit :=
  fun w => if configured w then fetchSessions mount_sessions w else (tt, w).

(** The refresh button: [onClick={fetchSessions}] of the current render. *)
Definition click_refresh : M unit :=
  fun w => fetchSessions (Dash.sessions (dash w)) w.

(** The callback of the alert timeout. *)
Definition alert_off : M unit :=
  set_state_dash "setNewSessionAlert" (Dash.setNewSessionAlert false).

Definition loadMessages (sessionId : string) : M unit :=
  data <- db_select_messages sessionId None ;;
  match data with
  | Some rows =>
      set_state_dash "setMessages" (Dash.setMessages (fun _ => map toLocal rows))
  | None => ret tt
  end.

(** The effect on [selectedSession?.id] (its [setIsConnected] writes a
    state that is never read and is left out). *)
Definition effect (selectedSession : option VerificationSession) : M unit :=
  match selectedSession with
  | None => set_state_dash "setMessages" (Dash.setMessages (fun _ => []))
  | Some s =>
      loadMessages (id s) ;;
      fun w => (tt, set_dash (Dash.setChannelRef
                                (Some (chat_channel (Some (id s)))) (dash w)) w)
  end.

(** The cleanup of that effect. *)
Definition cleanup : M unit :=
  fun w => (tt, set_dash (Dash.setChannelRef None (dash w)) w).

Definition same_selection (a b : option VerificationSession) : bool :=
  match a, b with
  | None, None => true
  | Some x, Some y => id x =? id y
  | _, _ => false
  end.

(** Re-render after a handler: the effect runs when the id changed. *)
Definition rerender (before : option VerificationSession) : M unit :=
  fun w =>
    let after := Dash.selectedSession (dash w) in
    if same_selection before after then (tt, w)
    else (match before with Some _ => cleanup | None => ret tt end ;;
          effect after) w.

(** Broadcast receivers. *)
Definition on_new_message (payload : Chat.LocalMessage) : M unit :=
  set_state_dash "setMessages"
    (Dash.setMessages
       (fun prev => prev ++ [Dash.mkLocal (Chat.id payload) (Chat.sender payload)
                                          (Chat.message payload)
                                          (Chat.created_at payload) None None])%list).

Definition on_code_attempt (c : string) (is_correct : JsVal) : M unit :=
  t <- now ;;
  let codeAttemptMsg :=
    Dash.mkLocal ("code-" ++ NilEmpty.string_of_int (Z.to_int t)) system c t
                 (Some code_attempt) (Some is_correct) in
  set_state_dash "setMessages" (Dash.setMessages (fun prev => prev ++ [codeAttemptMsg])%list).

Definition read_channelRef : M (option string) :=
  fun w => (Dash.channelRef (dash w), w).

Definition sendMessage (newMessage : string)
    (selectedSession : option VerificationSession) : M unit :=
  match selectedSession with
  | None => ret tt
  | Some sel =>
      if negb (truthy_string (trim newMessage)) then ret tt
      else
        i <- randomUUID ;;
        t <- now ;;
        let msg := Dash.mkLocal i admin (trim newMessage) t None None in
        set_state_dash "setMessages" (Dash.setMessages (fun prev => prev ++ [msg])%list) ;;
        set_state_dash "setNewMessage" (Dash.setNewMessage "") ;;
        db_insert_message
          (mkInsert (Some i) (Some (id sel)) admin (trim newMessage) None None) ;;
        ref <- read_channelRef ;;
        match ref with
        | Some ch =>
            channel_send ch "new-message"
                         (PMessage (Chat.mkLocal i admin (trim newMessage) t))
        | None => ret tt
        end
  end.

Definition endConversation (selectedSession : option VerificationSession) : M unit :=
  match selectedSession with
  | None => ret tt
  | Some sel =>
      let sessionId := id sel in
      ref <- read_channelRef ;;
      (match ref with
       | Some ch => channel_send ch "chat-ended" PEmpty
       | None => ret tt
       end) ;;
      sleep 500 ;;
      db_delete_messages sessionId ;;
      db_delete_session sessionId ;;
      set_state_dash "setSessions"
        (Dash.setSessions (filter (fun s => negb (id s =? sessionId)))) ;;
      set_state_dash "setSelectedSession" (Dash.setSelectedSession (fun _ => None)) ;;
      set_state_dash "setMessages" (Dash.setMessages (fun _ => []))
  end.

(** [{...s, status}] *)
Definition spread_status (st : Status) (s : VerificationSession) : VerificationSession :=
  with_status st (updated_at s) s.

Definition updateSessionStatus (selectedSession : option VerificationSession)
    (sessionId : string) (d : Decision) : M unit :=
  db_update_status (Some sessionId) (decided d) ;;
  set_state_dash "setSessions"
    (Dash.setSessions
       (map (fun s => if id s =? sessionId then spread_status (decided d) s else s))) ;;
  match selectedSession with
  | Some sel =>
      if id sel =? sessionId then
        set_state_dash "setSelectedSession"
          (Dash.setSelectedSession (option_map (spread_status (decided d))))
      else ret tt
  | None => ret tt
  end.

Definition saveVerificationCode (selectedSession : option VerificationSession)
    (codeInput : string) : M unit :=
  match selectedSession with
  | None => ret tt
  | Some sel =>
      if negb (truthy_string (trim codeInput)) then ret tt
      else
        db_update_code (id sel) (trim codeInput) ;;
        let updatedCode := trim codeInput in
        set_state_dash "setSessions"
          (Dash.setSessions
             (map (fun s => if id s =? id sel
                            then with_code updatedCode (updated_at s) s else s))) ;;
        set_state_dash "setSelectedSession"
          (Dash.setSelectedSession
             (option_map (fun s => with_code updatedCode (updated_at s) s))) ;;
        set_state_dash "setCodeInput" (Dash.setCodeInput "")
  end.

(** [filteredSessions]: the search term against name and email, and the
    status filter. *)
Definition filteredSessions (s : Dash.State) : list VerificationSession :=
  List.filter
    (fun session =>
       let matchesSearch :=
         includes (toLowerCase (mc_name session)) (toLowerCase (Dash.searchTerm s)) ||
         includes (toLowerCase (email session)) (toLowerCase (Dash.searchTerm s)) in
       let matchesFilter :=
         match Dash.filter s with
         | Dash.all => true
         | Dash.only st => Status_eqb (status session) st
         end in
       matchesSearch && matchesFilter)
    (Dash.sessions s).

(** A row of the session list: [onClick={() => setSelectedSession(session)}]. *)
Definition click_session (s : VerificationSession) : M unit :=
  fun w =>
    (set_state_dash "setSelectedSession" (Dash.setSelectedSession (fun _ => Some s)) ;;
     rerender (Dash.selectedSession (dash w))) w.

(** The Verify and Reject buttons exist only while the selected session, as
    the dashboard holds it, is pending. *)
Definition status_buttons_shown (s : Dash.State) : bool :=
  match Dash.selectedSession s with
  | Some sel => Status_eqb (status sel) pending
  | None => false
  end.

Definition click_status (d : Decision) : M unit :=
  fun w =>
    match Dash.selectedSession (dash w) with
    | Some sel =>
        if status_buttons_shown (dash w)
        then updateSessionStatus (Dash.selectedSession (dash w)) (id sel) d w
        else (tt, w)
    | None => (tt, w)
    end.

(** The send button, the Set Code button and the trash button. *)
Definition click_send : M unit :=
  fun w => sendMessage (Dash.newMessage (dash w)) (Dash.selectedSession (dash w)) w.

Definition click_set_code : M unit :=
  fun w =>
    match Dash.selectedSession (dash w) with
    | Some sel =>
        if truthy_string (code sel) then (tt, w)
        else saveVerificationCode (Dash.selectedSession (dash w))
                                  (Dash.codeInput (dash w)) w
    | None => (tt, w)
    end.

Definition click_end : M unit :=
  fun w =>
    (endConversation (Dash.selectedSession (dash w)) ;;
     rerender (Dash.selectedSession (dash w))) w.

(** How one entry of the transcript is drawn. *)
Inductive Bubble : Type :=
| CodeAttemptBubble (correct : bool) (c : string)
| ChatBubble (from_admin : bool) (body : string).

Definition is_code_attempt (k : option MessageType) : bool :=
  match k with
  | Some code_attempt => true
  | _ => false
  end.

Definition is_admin (s : Sender) : bool :=
  match s with
  | admin => true
  | _ => false
  end.

Definition bubble (msg : Dash.LocalMessage) : Bubble :=
  if is_code_attempt (Dash.message_type msg)
  then CodeAttemptBubble
         (match Dash.is_correct msg with Some v => truthy v | None => false end)
         (Dash.message msg)
  else ChatBubble (is_admin (Dash.sender msg)) (Dash.message msg).

End AdminDashboard.

(* ------------------------------------------------------------------ *)
(** ** The operations the two front ends expose *)

(** The pending timer that is due first (the first one among equals). *)
Fixpoint earliest (l : list (Z * Callback)) : option (Z * Callback) :=
  match l with
  | [] => None
  | x :: r =>
      match earliest r with
      | Some y => if (fst x <=? fst y)%Z then Some x else Some y
      | None => Some x
      end
  end.

Fixpoint remove_first (x : Z * Callback) (l : list (Z * Callback))
  : list (Z * Callback) :=
  match l with
  | [] => []
  | y :: r =>
      if (fst x =? fst y)%Z &&
         match snd x, snd y with
         | CbAlertOff, CbAlertOff | CbProcessingDone, CbProcessingDone => true
         | _, _ => false
         end
      then r else y :: remove_first x r
  end.

Definition run_callback (cb : Callback) : M unit :=
  match cb with
  | CbAlertOff => AdminDashboard.alert_off
  | CbProcessingDone => VerificationPage.processing_done
  end.

(** Time passes until the next timeout fires. *)
Definition fire_timer : M unit :=
  fun w =>
    match earliest (timers w) with
    | None => (tt, w)
    | Some (due, cb) =>
        run_callback cb
          (set_clock (Z.max (clock w) due)
                     (set_timers (remove_first (due, cb) (timers w)) w))
    end.

(** The chat panel is mounted while [isChatOpen]: opening it starts from
    the initial state and runs its effect, closing it drops the state and
    the channel. *)
Definition open_chat : M unit :=
  fun w =>
    if Wizard.isChatOpen (wizard w) then (tt, w)
    else
      (set_state_wizard "setIsChatOpen" (Wizard.setIsChatOpen true) ;;
       (fun w1 => (tt, set_chat Chat.init w1)) ;;
       ChatWindow.effect (Wizard.sessionId (wizard w))) w.

Definition close_chat : M unit :=
  set_state_wizard "setIsChatOpen" (Wizard.setIsChatOpen false) ;;
  fun w => (tt, set_chat Chat.init w).

(** The chat button: [setIsChatOpen(!isChatOpen); setUnreadCount(0)]. *)
Definition toggle_chat : M unit :=
  fun w =>
    ((if Wizard.isChatOpen (wizard w) then close_chat else open_chat) ;;
     set_state_wizard "setUnreadCount" (Wizard.setUnreadCount (fun _ => 0))) w.

Definition same_id (a b : option string) : bool :=
  match a, b with
  | None, None => true
  | Some x, Some y => x =? y
  | _, _ => false
  end.

(** Re-render of the page after a handler: the effect of an open chat panel
    runs again when the session id changed. *)
Definition wizard_rerender (before : option string) : M unit :=
  fun w =>
    if Wizard.isChatOpen (wizard w) && negb (same_id before (Wizard.sessionId (wizard w)))
    then ChatWindow.effect (Wizard.sessionId (wizard w)) w
    else (tt, w).

(** The row-insert notification behind the unread badge; the subscription
    exists while there is a session and the chat panel is closed. *)
Definition notify_insert (from : Sender) : M unit :=
  fun w =>
    if truthy_id (Wizard.sessionId (wizard w)) && negb (Wizard.isChatOpen (wizard w))
    then
      match from with
      | admin =>
          set_state_wizard "setUnreadCount" (Wizard.setUnreadCount (fun prev => prev + 1)) w
      | _ => (tt, w)
      end
    else (tt, w).

(** Delivery of a broadcast event to the chat panel and to the dashboard. *)
Definition chat_receives (event : string) (p : Payload) : M unit :=
  fun w =>
    match Chat.channelRef (chat w), p with
    | Some _, PMessage m =>
        if event =? "new-message" then ChatWindow.on_new_message m w else (tt, w)
    | Some _, PEmpty =>
        if event =? "chat-ended" then ChatWindow.on_chat_ended w else (tt, w)
    | _, _ => (tt, w)
    end.

Definition dash_receives (event : string) (p : Payload) : M unit :=
  fun w =>
    match Dash.channelRef (dash w), p with
    | Some _, PMessage m =>
        if event =? "new-message" then AdminDashboard.on_new_message m w else (tt, w)
    | Some _, PCodeAttempt c v =>
        if event =? "code-attempt" then AdminDashboard.on_code_attempt c v w else (tt, w)
    | _, _ => (tt, w)
    end.

Definition wizard_view (w : World) : option VerificationPage.View :=
  VerificationPage.view (wizard w).

Definition chat_usable (w : World) : bool :=
  Wizard.isChatOpen (wizard w) && Chat.isConnected (chat w) &&
  negb (Chat.chatEnded (chat w)).

Definition has_selection (w : World) : bool :=
  match Dash.selectedSession (dash w) with
  | Some _ => true
  | None => false
  end.

Inductive Op : Type :=
(* the end user *)
| WStart
| WType (f : VerificationPage.Field) (v : string)
| WNext
| WBack
| WChatToggle
| WChatOpen
| WChatClose
| WChatType (v : string)
| WChatSend
(* the operator *)
| DMount
| DTick
| DRefresh
| DSearch (v : string)
| DFilter (f : Dash.Filter)
| DSelect (n : nat)
| DDecide (d : AdminDashboard.Decision)
| DTypeCode (v : string)
| DSetCode
| DTypeMessage (v : string)
| DSend
| DEnd
(* the environment *)
| FireTimer
| Net (outcomes : list bool)
| ToChat (event : string) (p : Payload)
| ToDash (event : string) (p : Payload)
| Notify (from : Sender).

(** An operation does something only where the page offers it. *)
Definition step (o : Op) : M unit :=
  match o with
  | WStart =>
      fun w =>
        match wizard_view w with
        | Some VerificationPage.WelcomeView => VerificationPage.handleStartVerification w
        | _ => (tt, w)
        end
  | WType f v =>
      fun w =>
        match wizard_view w with
        | Some (VerificationPage.Form fv) =>
            match VerificationPage.v_field fv, f with
            | VerificationPage.f_mcName, VerificationPage.f_mcName
            | VerificationPage.f_email, VerificationPage.f_email
            | VerificationPage.f_code, VerificationPage.f_code =>
                VerificationPage.type_field f v w
            | _, _ => (tt, w)
            end
        | _ => (tt, w)
        end
  | WNext =>
      fun w =>
        (VerificationPage.click_next ;;
         wizard_rerender (Wizard.sessionId (wizard w))) w
  | WBack =>
      fun w =>
        match wizard_view w with
        | Some (VerificationPage.Form fv) =>
            if VerificationPage.v_back fv
            then set_state_wizard "setFormStep"
                   (Wizard.setFormStep (fun curr => curr - 1)%nat) w
            else (tt, w)
        | _ => (tt, w)
        end
  | WChatToggle => toggle_chat
  | WChatOpen => open_chat
  | WChatClose =>
      fun w => if Wizard.isChatOpen (wizard w) then close_chat w else (tt, w)
  | WChatType v =>
      fun w =>
        if chat_usable w then set_state_chat "setInput" (Chat.setInput v) w
        else (tt, w)
  | WChatSend =>
      fun w => if chat_usable w then ChatWindow.click_send w else (tt, w)
  | DMount => AdminDashboard.mount
  | DTick => AdminDashboard.interval_tick
  | DRefresh => AdminDashboard.click_refresh
  | DSearch v => set_state_dash "setSearchTerm" (Dash.setSearchTerm v)
  | DFilter f => set_state_dash "setFilter" (Dash.setFilter f)
  | DSelect n =>
      fun w =>
        match nth_error (AdminDashboard.filteredSessions (dash w)) n with
        | Some s => AdminDashboard.click_session s w
        | None => (tt, w)
        end
  | DDecide d => AdminDashboard.click_status d
  | DTypeCode v =>
      fun w =>
        match Dash.selectedSession (dash w) with
        | Some sel =>
            if truthy_string (code sel) then (tt, w)
            else set_state_dash "setCodeInput" (Dash.setCodeInput v) w
        | None => (tt, w)
        end
  | DSetCode => AdminDashboard.click_set_code
  | DTypeMessage v =>
      fun w =>
        if has_selection w
        then set_state_dash "setNewMessage" (Dash.setNewMessage v) w
        else (tt, w)
  | DSend => AdminDashboard.click_send
  | DEnd => AdminDashboard.click_end
  | FireTimer => fire_timer
  | Net outcomes => fun w => (tt, set_net outcomes w)
  | ToChat event p => chat_receives event p
  | ToDash event p => dash_receives event p
  | Notify from => notify_insert from
  end.

Fixpoint run (ops : list Op) (w : World) : World :=
  match ops with
  | [] => w
  | o :: r => run r (exec (step o) w)
  end.

(** The events a handler adds to the log. *)
Definition events {A} (m : M A) (w : World) : list Event :=
  skipn (List.length (log w)) (log (exec m w)).

(** All coming remote calls succeed. *)
Definition online (w : World) : Prop := Forall (fun b => b = true) (net w).

(** A fresh page load of both front ends over an empty store. *)
Definition empty_world : World :=
  mkWorld [] [] 0 0 [] [] [] true Wizard.init Chat.init Dash.init.

(** The user has entered name and email and waited for the code step; the
    operator has opened the dashboard, selected the request and set the
    code 482913. *)
Definition issued_world : World :=
  run [ WStart; WType VerificationPage.f_mcName "Notch"; WNext;
        WType VerificationPage.f_email "a@b.com"; WNext; FireTimer;
        DMount; DSelect 0; DTypeCode "482913"; DSetCode ] empty_world.

(** The user submitted 000000 against the issued code. *)
Definition attempted_world : World :=
  run [ WType VerificationPage.f_code "000000"; WNext ] issued_world.

(* ------------------------------------------------------------------ *)
(** ** Scenarios and the predicates of the statements *)

(** The user is on the email step and the backend is unreachable. *)
Definition email_step_offline : World :=
  run [ WStart; WType VerificationPage.f_mcName "Notch"; WNext;
        WType VerificationPage.f_email "a@b.com"; Net [false] ] empty_world.

(** The condition under which [fetchSessions] raises the alert. *)
Definition grew (held fetched : list VerificationSession) : bool :=
  (0 <? List.length held)%nat && (List.length held <? List.length fetched)%nat.

(** The dashboard is open over an empty store when the first request
    arrives. *)
Definition first_request_world : World :=
  run [ DMount; WStart; WType VerificationPage.f_mcName "Notch"; WNext;
        WType VerificationPage.f_email "a@b.com"; WNext ] empty_world.

Definition is_message_insert (e : Event) : bool :=
  match e with
  | EvInsertMessage _ _ => true
  | _ => false
  end.

Definition is_status_update (e : Event) : bool :=
  match e with
  | EvUpdateStatus _ _ _ => true
  | _ => false
  end.

(** The user has typed the issued code. *)
Definition typed_world : World :=
  run [ WType VerificationPage.f_code "482913" ] issued_world.

(** The user is on the code step and the operator has not issued a code. *)
Definition awaiting_code_world : World :=
  run [ WStart; WType VerificationPage.f_mcName "Notch"; WNext;
        WType VerificationPage.f_email "a@b.com"; WNext; FireTimer ] empty_world.

(** What an operation may do to one row: keep its id, and either keep its
    status or set it to verified or rejected. *)
Definition status_moves (s s' : VerificationSession) : Prop :=
  id s' = id s /\
  (status s' = status s \/ status s' = verified \/ status s' = rejected).

(** What an operation may do to the table of sessions. *)
Inductive table_step (t : list VerificationSession)
  : list VerificationSession -> Prop :=
| rows_updated (f : VerificationSession -> VerificationSession) :
    (forall s, status_moves s (f s)) -> table_step t (map f t)
| row_created (row : VerificationSession) :
    status row = pending -> table_step t (t ++ [row])%list
| rows_deleted (g : VerificationSession -> bool) :
    table_step t (filter g t).

Inductive table_steps : list VerificationSession -> list VerificationSession -> Prop :=
| steps_done t : table_steps t t
| steps_next t t' t'' : table_step t t' -> table_steps t' t'' -> table_steps t t''.

(* ------------------------------------------------------------------ *)
(** ** What the pages draw besides *)

(** The four counters above the session list (AdminDashboard.tsx). *)
Record Stats : Type := mkStats {
  total_sessions : nat;
  pending_sessions : nat;
  verified_sessions : nat;
  rejected_sessions : nat
}.

Definition count_status (st : Status) (l : list VerificationSession) : nat :=
  List.length (filter (fun s => Status_eqb (status s) st) l).

Definition stats (s : Dash.State) : Stats :=
  mkStats (List.length (Dash.sessions s))
          (count_status pending (Dash.sessions s))
          (count_status verified (Dash.sessions s))
          (count_status rejected (Dash.sessions s)).

(** The badge on the chat button: [unreadCount > 0 && !isChatOpen]. *)
Definition badge (s : Wizard.State) : option nat :=
  if (0 <? Wizard.unreadCount s)%nat && negb (Wizard.isChatOpen s)
  then Some (Wizard.unreadCount s) else None.

(** The credentials check of lib/supabase. *)
Definition isSupabaseConfigured (supabaseUrl supabaseAnonKey : string) : bool :=
  truthy_string supabaseUrl && truthy_string supabaseAnonKey &&
  negb (supabaseUrl =? "your_supabase_project_url").

(* ------------------------------------------------------------------ *)
(** ** AdminLogin (AdminLogin.tsx) and AdminPage (App.tsx) *)

Module AdminLogin.

(** The role column of admin_users. *)
Inductive Role : Type := role_admin | role_user.

(** What [supabase.auth.signInWithPassword] gives back. *)
Inductive SignIn : Type :=
| sign_in_throws
| sign_in_error (message : string)
| sign_in_no_user
| sign_in_user (uid : string).

(** What the select of the role gives back: [lookup_failed] stands for
    [userError || !userData]. *)
Inductive RoleLookup : Type :=
| lookup_throws
| lookup_failed
| lookup_role (r : Role).

(** The auth provider and the table admin_users, as the form meets them. *)
Record Backend : Type := mkBackend {
  configured : bool;
  signInWithPassword : string -> string -> SignIn;
  select_role : string -> RoleLookup;
  signOut_throws : bool
}.

Record State : Type := mkState {
  email : string;
  password : string;
  error : string;
  isLoading : bool
}.

Definition init : State := mkState "" "" "" false.

Definition setError (v : string) (s : State) :=
  mkState (email s) (password s) v (isLoading s).
Definition setIsLoading (v : bool) (s : State) :=
  mkState (email s) (password s) (error s) v.

(** What lives outside the form: the key blockclash_admin of localStorage,
    the session of the auth client, and the argument [onLogin] was called
    with. *)
Record Outside : Type := mkOutside {
  storage : option string;
  auth_session : option string;
  onLogin : option string
}.

Definition signed_in (uid : string) (o : Outside) :=
  mkOutside (storage o) (Some uid) (onLogin o).

(** [await supabase.auth.signOut()] inside the [try]: [None] when it
    throws. *)
Definition signOut (b : Backend) (o : Outside) : option Outside :=
  if signOut_throws b then None
  else Some (mkOutside (storage o) None (onLogin o)).

Definition generic_error : string := "An error occurred. Please try again.".

(** The two refusals after the role lookup: the message, the sign-out, the
    early return; a throwing sign-out lands in the [catch]. *)
Definition refuse (b : Backend) (message : string) (s : State) (o : Outside)
  : State * Outside :=
  match signOut b o with
  | Some o' => (setIsLoading false (setError message s), o')
  | None => (setIsLoading false (setError generic_error (setError message s)), o)
  end.

Definition handleSubmit (b : Backend) (s : State) (o : Outside) : State * Outside :=
  let s1 := setError "" (setIsLoading true s) in
  if negb (configured b) then
    (setIsLoading false
       (setError "Supabase not configured. Please update .env file." s1), o)
  else
    match signInWithPassword b (email s) (password s) with
    | sign_in_throws => (setIsLoading false (setError generic_error s1), o)
    | sign_in_error message => (setIsLoading false (setError message s1), o)
    | sign_in_no_user => (setIsLoading false (setError "Login failed" s1), o)
    | sign_in_user uid =>
        let o1 := signed_in uid o in
        match select_role b uid with
        | lookup_throws => (setIsLoading false (setError generic_error s1), o1)
        | lookup_failed => refuse b "User not found in admin system" s1 o1
        | lookup_role role_user =>
            refuse b "Access denied. Admin privileges required." s1 o1
        | lookup_role role_admin =>
            (setIsLoading false s1, mkOutside (Some uid) (Some uid) (Some uid))
        end
    end.

(** The submit button: [disabled={!email || !password || isLoading}]. *)
Definition submit_disabled (s : State) : bool :=
  negb (truthy_string (email s)) || negb (truthy_string (password s)) || isLoading s.

End AdminLogin.

Module AdminPage.

(** The initial value of [isAuthenticated], read from localStorage. *)
Definition initially_authenticated (stored : option string) : bool :=
  match stored with
  | Some adminId => negb (adminId =? "false") && negb (adminId =? "")
  | None => false
  end.

Inductive View : Type := LoginView | DashboardView.

Definition view (isAuthenticated : bool) : View :=
  if isAuthenticated then DashboardView else LoginView.

(** A visit of /admin: mount, then possibly one submit of the form; the
    result is what is shown and what is left outside. [onLogin] sets
    [isAuthenticated]. *)
Definition after_submit (b : AdminLogin.Backend) (form : AdminLogin.State)
    (o : AdminLogin.Outside) : View * AdminLogin.Outside :=
  if initially_authenticated (AdminLogin.storage o) then (DashboardView, o)
  else
    let r := AdminLogin.handleSubmit b form o in
    (view (match AdminLogin.onLogin (snd r) with Some _ => true | None => false end),
     snd r).

(** [handleLogout]: remove the key, sign out, show the login form; the
    sign-out is awaited outside any [try], so when it throws the dashboard
    stays on screen. *)
Definition handleLogout (b : AdminLogin.Backend) (o : AdminLogin.Outside)
  : View * AdminLogin.Outside :=
  let o1 := AdminLogin.mkOutside None (AdminLogin.auth_session o) (AdminLogin.onLogin o) in
  match AdminLogin.signOut b o1 with
  | Some o2 => (view false, o2)
  | None => (view true, o1)
  end.

End AdminPage.

(* ------------------------------------------------------------------ *)
(** ** Invariants and further scenarios *)

(** The form step is one of the three steps. *)
Definition step_in_range (w : World) : Prop := (Wizard.formStep (wizard w) <= 2)%nat.

(** Every message belongs to a session that is in the store. *)
Definition integrity (w : World) : Prop :=
  forall m, In m (chat_messages w) ->
            session_exists (verification_sessions w) (session_id m) = true.

(** The user types each code in turn and presses Verify Code. *)
Definition attempts (codes : list string) : list Op :=
  flat_map (fun c => [WType VerificationPage.f_code c; WNext]) codes.

(** The page is on the code step for the session row [s], nothing is in
    flight, and every remote call will succeed. *)
Definition on_code_step (w : World) (s : VerificationSession) : Prop :=
  Wizard.step (wizard w) = Wizard.form /\
  Wizard.formStep (wizard w) = 2 /\
  Wizard.isSuccess (wizard w) = false /\
  Wizard.isProcessing (wizard w) = false /\
  Wizard.isVerifying (wizard w) = false /\
  Wizard.sessionId (wizard w) = Some (id s) /\
  select_single (verification_sessions w) (Some (id s)) = Some s /\
  net w = [].

Definition count_attempts (l : list ChatMessage) : nat :=
  List.length (filter (fun m => MessageType_eqb (message_type m) code_attempt) l).

(** A user whose role is not admin: signed in, looked up, signed out. *)
Definition plain_user_backend : AdminLogin.Backend :=
  AdminLogin.mkBackend true (fun _ _ => AdminLogin.sign_in_user "u1")
                       (fun _ => AdminLogin.lookup_role AdminLogin.role_user) false.

(* ------------------------------------------------------------------ *)
(** * Properties *)

(** ** Queries *)

Section Sorting.

Context {A : Type} (le : A -> A -> bool).

Lemma In_insert_by (x y : A) (l : list A) :
  In y (insert_by le x l) <-> y = x \/ In y l.
Proof.
  induction l as [|z r IH]; simpl.
  - intuition congruence.
  - destruct (le x z); simpl; rewrite ?IH; intuition congruence.
Qed.

Lemma In_sort_by (y : A) (l : list A) : In y (sort_by le l) <-> In y l.
Proof.
  induction l as [|z r IH]; simpl; [tauto|].
  rewrite In_insert_by, IH. intuition congruence.
Qed.

Lemma length_insert_by (x : A) (l : list A) :
  List.length (insert_by le x l) = S (List.length l).
Proof.
  induction l as [|z r IH]; simpl; [reflexivity|].
  destruct (le x z); simpl; congruence.
Qed.

Lemma length_sort_by (l : list A) : List.length (sort_by le l) = List.length l.
Proof.
  induction l as [|z r IH]; simpl; [reflexivity|].
  rewrite length_insert_by. congruence.
Qed.

End Sorting.

Lemma In_select_messages (tbl : list ChatMessage) (sid : string)
    (neq : option MessageType) (r : ChatMessage) :
  In r (select_messages tbl sid neq) <->
  In r tbl /\ session_id r = sid /\
  match neq with Some t => message_type r <> t | None => True end.
Proof.
  unfold select_messages. rewrite In_sort_by, filter_In, andb_true_iff.
  rewrite String.eqb_eq.
  destruct neq as [t|].
  - rewrite negb_true_iff.
    destruct (message_type r), t; simpl; intuition congruence.
  - intuition.
Qed.

(** ** The two transcript loads *)

Lemma ChatWindow_loadMessages_state (w : World) (sid : string) :
  Chat.messages (chat (exec (ChatWindow.loadMessages sid) w)) =
  if hd true (net w)
  then map ChatWindow.toLocal (ChatWindow.loadQuery (chat_messages w) sid)
  else Chat.messages (chat w).
Proof.
  unfold exec, ChatWindow.loadMessages, db_select_messages, bind, remote, emit.
  cbn. destruct (hd true (net w)); reflexivity.
Qed.

Lemma AdminDashboard_loadMessages_state (w : World) (sid : string) :
  Dash.messages (dash (exec (AdminDashboard.loadMessages sid) w)) =
  if hd true (net w)
  then map AdminDashboard.toLocal (AdminDashboard.loadQuery (chat_messages w) sid)
  else Dash.messages (dash w).
Proof.
  unfold exec, AdminDashboard.loadMessages, db_select_messages, bind, remote, emit.
  cbn. destruct (hd true (net w)); reflexivity.
Qed.


(** C9. When the operator-side load returns, every entry of the transcript
    carries neither message_type nor is_correct and is drawn as an ordinary
    chat bubble; this includes the entry of every stored code_attempt row
    of the session. *)
Theorem operator_load_drops_kind (w : World) (sid : string)
    (Hok : hd true (net w) = true) :
  Forall (fun msg =>
            Dash.message_type msg = None /\ Dash.is_correct msg = None /\
            AdminDashboard.bubble msg =
              AdminDashboard.ChatBubble
                (AdminDashboard.is_admin (Dash.sender msg)) (Dash.message msg))
         (Dash.messages (dash (exec (AdminDashboard.loadMessages sid) w))) /\
  (forall r, In r (chat_messages w) -> session_id r = sid ->
             message_type r = code_attempt ->
             In (AdminDashboard.toLocal r)
                (Dash.messages (dash (exec (AdminDashboard.loadMessages sid) w))) /\
             AdminDashboard.bubble (AdminDashboard.toLocal r) =
               AdminDashboard.ChatBubble
                 (AdminDashboard.is_admin (m_sender r)) (m_message r)).
Proof.
  rewrite AdminDashboard_loadMessages_state, Hok. split.
  - apply Forall_forall. intros msg Hin.
    apply in_map_iff in Hin. destruct Hin as [r [<- _]].
    repeat split.
  - intros r Hin Hsid Hkind. split; [|reflexivity].
    apply in_map. apply In_select_messages. tauto.
Qed.

Lemma operator_load_drops_kind_witness :
  hd true (net attempted_world) = true /\
  Forall (fun msg =>
            Dash.message_type msg = None /\ Dash.is_correct msg = None /\
            AdminDashboard.bubble msg =
              AdminDashboard.ChatBubble
                (AdminDashboard.is_admin (Dash.sender msg)) (Dash.message msg))
         (Dash.messages
            (dash (exec (AdminDashboard.loadMessages "uuid-0") attempted_world))).
Proof.
  split; [reflexivity|].
  exact (proj1 (operator_load_drops_kind attempted_world "uuid-0" eq_refl)).
Defined.

(** ** Reading the log *)

Lemma events_intro {A} (m : M A) (w : World) (l : list Event) :
  log (exec m w) = (log w ++ l)%list -> events m w = l.
Proof.
  intros H. unfold events. rewrite H.
  rewrite skipn_app, skipn_all, Nat.sub_diag. reflexivity.
Qed.

Ltac unfold_remote :=
  unfold db_insert_message, db_insert_session, db_update_status, db_update_code,
    db_delete_messages, db_delete_session, db_select_messages,
    db_select_sessions, db_select_session, channel_send.

Ltac unfold_monad :=
  unfold exec, bind, ret, emit, remote, called, sleep, setTimeout, now, randomUUID,
    set_state_wizard, set_state_chat, set_state_dash.

Ltac flatten_log := repeat rewrite <- app_assoc; simpl app.

(** Closed statements about concrete worlds are settled by evaluation. *)
Ltac by_computation :=
  cbv zeta; repeat match goal with |- _ /\ _ => split end; vm_compute; reflexivity.

(** ** The email step *)

(** C6. On the email step, when the insert of the session row fails, the
    wizard state after [handleNext] is the state before it with the
    processing flag off: no session id is stored, the form step is still
    the email step, no timeout is pending, and the store has no new row. *)
Theorem session_creation_failure (w : World)
    (Hstep : Wizard.formStep (wizard w) = 1)
    (Hfail : hd true (net w) = false) :
  wizard (exec (VerificationPage.handleNext (wizard w)) w) =
    Wizard.setIsProcessing false (wizard w) /\
  Wizard.sessionId (wizard (exec (VerificationPage.handleNext (wizard w)) w)) =
    Wizard.sessionId (wizard w) /\
  Wizard.formStep (wizard (exec (VerificationPage.handleNext (wizard w)) w)) = 1 /\
  verification_sessions (exec (VerificationPage.handleNext (wizard w)) w) =
    verification_sessions w /\
  timers (exec (VerificationPage.handleNext (wizard w)) w) = timers w /\
  events (VerificationPage.handleNext (wizard w)) w =
    [ EvSet "VerificationPage" "setIsProcessing";
      EvInsertSession (Wizard.email (Wizard.formData (wizard w))) false;
      EvSet "VerificationPage" "setIsProcessing" ].
Proof.
  unfold VerificationPage.handleNext. rewrite Hstep. simpl Nat.eqb. cbv iota.
  unfold VerificationPage.createSessionWithEmail. unfold_remote.
  repeat split.
  - unfold_monad. cbn. rewrite Hfail. cbn. reflexivity.
  - unfold_monad. cbn. rewrite Hfail. cbn. reflexivity.
  - unfold_monad. cbn. rewrite Hfail. cbn. exact Hstep.
  - unfold_monad. cbn. rewrite Hfail. cbn. reflexivity.
  - unfold_monad. cbn. rewrite Hfail. cbn. reflexivity.
  - apply events_intro. unfold_monad. cbn. rewrite Hfail. cbn.
    flatten_log. reflexivity.
Qed.

Lemma session_creation_failure_witness :
  Wizard.formStep (wizard email_step_offline) = 1 /\
  hd true (net email_step_offline) = false /\
  wizard (exec (VerificationPage.handleNext (wizard email_step_offline))
               email_step_offline) =
    Wizard.setIsProcessing false (wizard email_step_offline).
Proof.
  split; [reflexivity|]. split; [reflexivity|].
  exact (proj1 (session_creation_failure email_step_offline eq_refl eq_refl)).
Defined.

(** ** Sending a chat message *)

Lemma ChatWindow_handleSend_local (w : World) (sessionId : option string)
    (text : string)
    (Htext : truthy_string (trim text) = true)
    (Hsid : truthy_id sessionId = true) :
  chat (exec (ChatWindow.handleSend sessionId false text) w) =
    Chat.setInput ""
      (Chat.setMessages
         (fun prev => prev ++ [Chat.mkLocal (uuid_of (fresh w)) user (trim text) (clock w)])%list
         (chat w)) /\
  exists ok,
    events (ChatWindow.handleSend sessionId false text) w =
      ([ EvSet "ChatWindow" "setMessages"; EvSet "ChatWindow" "setInput";
         EvInsertMessage
           (mkInsert (Some (uuid_of (fresh w))) sessionId user (trim text) None None) ok ]
       ++ match Chat.channelRef (chat w) with
          | Some ch =>
              [ EvBroadcast ch "new-message"
                  (PMessage (Chat.mkLocal (uuid_of (fresh w)) user (trim text) (clock w)))
                  (hd true (tl (net w))) ]
          | None => []
          end)%list.
Proof.
  destruct sessionId as [sid|]; [|discriminate].
  unfold ChatWindow.handleSend. rewrite Htext, Hsid. cbn [negb orb].
  unfold_remote. split.
  - unfold_monad. cbn.
    destruct (hd true (net w) && _); cbn;
      destruct (Chat.channelRef (chat w)); reflexivity.
  - exists (hd true (net w) &&
            insert_accepted w
              (mkInsert (Some (uuid_of (fresh w))) (Some sid) user (trim text) None None)).
    apply events_intro. unfold_monad. unfold insert_accepted. cbn.
    destruct (hd true (net w) && _); cbn;
      destruct (Chat.channelRef (chat w)); cbn; flatten_log; reflexivity.
Qed.

Lemma AdminDashboard_sendMessage_local (w : World) (newMessage : string)
    (sel : VerificationSession)
    (Htext : truthy_string (trim newMessage) = true) :
  dash (exec (AdminDashboard.sendMessage newMessage (Some sel)) w) =
    Dash.setNewMessage ""
      (Dash.setMessages
         (fun prev => prev ++ [Dash.mkLocal (uuid_of (fresh w)) admin (trim newMessage)
                                            (clock w) None None])%list
         (dash w)) /\
  exists ok,
    events (AdminDashboard.sendMessage newMessage (Some sel)) w =
      ([ EvSet "AdminDashboard" "setMessages"; EvSet "AdminDashboard" "setNewMessage";
         EvInsertMessage
           (mkInsert (Some (uuid_of (fresh w))) (Some (id sel)) admin
                     (trim newMessage) None None) ok ]
       ++ match Dash.channelRef (dash w) with
          | Some ch =>
              [ EvBroadcast ch "new-message"
                  (PMessage (Chat.mkLocal (uuid_of (fresh w)) admin (trim newMessage)
                                          (clock w)))
                  (hd true (tl (net w))) ]
          | None => []
          end)%list.
Proof.
  unfold AdminDashboard.sendMessage. rewrite Htext. cbn [negb].
  unfold AdminDashboard.read_channelRef. unfold_remote. split.
  - unfold_monad. cbn.
    destruct (hd true (net w) && _); cbn;
      destruct (Dash.channelRef (dash w)); reflexivity.
  - exists (hd true (net w) &&
            insert_accepted w
              (mkInsert (Some (uuid_of (fresh w))) (Some (id sel)) admin
                        (trim newMessage) None None)).
    apply events_intro. unfold_monad. unfold insert_accepted. cbn.
    destruct (hd true (net w) && _); cbn;
      destruct (Dash.channelRef (dash w)); cbn; flatten_log; reflexivity.
Qed.

(** C8. A send with a non-blank text and a session (and, in the widget, a
    chat that has not ended): whatever the outcomes of the remote calls,
    the view state afterwards is the old one with the optimistic copy
    appended and the input cleared; the two local updates are the first
    effects, followed by exactly one insert and at most one broadcast; no
    other state is written and nothing is sent twice. *)
Theorem optimistic_send (w : World) (outcomes : list bool)
    (sessionId : option string) (text newMessage : string)
    (sel : VerificationSession)
    (Hsid : truthy_id sessionId = true)
    (Htext : truthy_string (trim text) = true)
    (Hnew : truthy_string (trim newMessage) = true) :
  (chat (exec (ChatWindow.handleSend sessionId false text) (set_net outcomes w)) =
     Chat.setInput ""
       (Chat.setMessages
          (fun prev => prev ++ [Chat.mkLocal (uuid_of (fresh w)) user (trim text) (clock w)])%list
          (chat w)) /\
   exists ok,
     events (ChatWindow.handleSend sessionId false text) (set_net outcomes w) =
       ([ EvSet "ChatWindow" "setMessages"; EvSet "ChatWindow" "setInput";
          EvInsertMessage
            (mkInsert (Some (uuid_of (fresh w))) sessionId user (trim text) None None) ok ]
        ++ match Chat.channelRef (chat w) with
           | Some ch =>
               [ EvBroadcast ch "new-message"
                   (PMessage (Chat.mkLocal (uuid_of (fresh w)) user (trim text) (clock w)))
                   (hd true (tl outcomes)) ]
           | None => []
           end)%list) /\
  (dash (exec (AdminDashboard.sendMessage newMessage (Some sel)) (set_net outcomes w)) =
     Dash.setNewMessage ""
       (Dash.setMessages
          (fun prev => prev ++ [Dash.mkLocal (uuid_of (fresh w)) admin (trim newMessage)
                                             (clock w) None None])%list
          (dash w)) /\
   exists ok,
     events (AdminDashboard.sendMessage newMessage (Some sel)) (set_net outcomes w) =
       ([ EvSet "AdminDashboard" "setMessages"; EvSet "AdminDashboard" "setNewMessage";
          EvInsertMessage
            (mkInsert (Some (uuid_of (fresh w))) (Some (id sel)) admin
                      (trim newMessage) None None) ok ]
        ++ match Dash.channelRef (dash w) with
           | Some ch =>
               [ EvBroadcast ch "new-message"
                   (PMessage (Chat.mkLocal (uuid_of (fresh w)) admin (trim newMessage)
                                           (clock w)))
                   (hd true (tl outcomes)) ]
           | None => []
           end)%list).
Proof.
  split.
  - exact (ChatWindow_handleSend_local (set_net outcomes w) sessionId text Htext Hsid).
  - exact (AdminDashboard_sendMessage_local (set_net outcomes w) newMessage sel Hnew).
Qed.

Lemma optimistic_send_witness :
  chat (exec (ChatWindow.handleSend (Some "uuid-0") false " hello ")
             (set_net [false; false] issued_world)) =
    Chat.mkState [Chat.mkLocal "uuid-1" user "hello" 30000] "" false false None /\
  dash (exec (AdminDashboard.sendMessage "hi" (Dash.selectedSession (dash issued_world)))
             (set_net [false; false] issued_world)) =
    Dash.setNewMessage ""
      (Dash.setMessages (fun prev => prev ++ [Dash.mkLocal "uuid-1" admin "hi" 30000 None None])%list
                        (dash issued_world)).
Proof.
  pose proof (optimistic_send issued_world [false; false] (Some "uuid-0")
                " hello " "hi"
                (mkSession "uuid-0" "" "a@b.com" "482913" pending 0 0 false)
                eq_refl eq_refl eq_refl) as H.
  split; [exact (proj1 (proj1 H)) | exact (proj1 (proj2 H))].
Defined.

(** ** Ending a conversation *)

Lemma online_hd (l : list bool) :
  Forall (fun b => b = true) l -> hd true l = true.
Proof. intros H. destruct H; simpl; auto. Qed.

Lemma online_tl (l : list bool) :
  Forall (fun b => b = true) l -> Forall (fun b => b = true) (tl l).
Proof. intros H. destruct H; simpl; auto. Qed.

Lemma filter_idem {A} (f : A -> bool) (l : list A) :
  filter f (filter f l) = filter f l.
Proof.
  induction l as [|x r IH]; simpl; [reflexivity|].
  destruct (f x) eqn:E; simpl; rewrite ?E, IH; reflexivity.
Qed.

Lemma select_messages_deleted (tbl : list ChatMessage) (sid : string)
    (neq : option MessageType) :
  select_messages (filter (fun m => negb (session_id m =? sid)) tbl) sid neq = [].
Proof.
  unfold select_messages.
  induction tbl as [|m r IH]; simpl; [reflexivity|].
  destruct (session_id m =? sid) eqn:E; simpl; [exact IH|].
  rewrite E. simpl. exact IH.
Qed.



(** ** The session list refresh *)

(** C7, as the code has it. A refresh whose closure holds the list [held]
    raises the alert exactly when the fetch returns data, [held] is not
    empty and the fetched list has more rows than [held] (a comparison of
    counts); raising it also sets the 3000 ms timeout that lowers it; the
    refresh button is the refresh whose closure holds the current list. *)
Theorem refresh_alert (w : World) (held : list VerificationSession) :
  Dash.newSessionAlert (dash (exec (AdminDashboard.fetchSessions held) w)) =
    (hd true (net w) && grew held (select_sessions (verification_sessions w)))
    || Dash.newSessionAlert (dash w) /\
  timers (exec (AdminDashboard.fetchSessions held) w) =
    (timers w ++
     if hd true (net w) && grew held (select_sessions (verification_sessions w))
     then [((clock w + 3000)%Z, CbAlertOff)] else [])%list /\
  Dash.sessions (dash (exec (AdminDashboard.fetchSessions held) w)) =
    (if hd true (net w) then select_sessions (verification_sessions w)
     else Dash.sessions (dash w)) /\
  exec AdminDashboard.click_refresh w =
    exec (AdminDashboard.fetchSessions (Dash.sessions (dash w))) w.
Proof.
  unfold AdminDashboard.fetchSessions, grew. unfold_remote.
  repeat split.
  - unfold_monad. cbn -[Nat.ltb select_sessions].
    destruct (hd true (net w)); cbn -[Nat.ltb select_sessions]; [|reflexivity].
    destruct ((0 <? _)%nat && _); reflexivity.
  - unfold_monad. cbn -[Nat.ltb select_sessions].
    destruct (hd true (net w)); cbn -[Nat.ltb select_sessions];
      [|symmetry; apply app_nil_r].
    destruct ((0 <? _)%nat && _); cbn; [reflexivity|symmetry; apply app_nil_r].
  - unfold_monad. cbn -[Nat.ltb select_sessions].
    destruct (hd true (net w)); cbn -[Nat.ltb select_sessions]; reflexivity.
Qed.

(** The interval installed on mount never raises the alert: its closure
    holds the initial, empty list. *)
Lemma interval_tick_never_alerts (w : World) :
  Dash.newSessionAlert (dash (exec AdminDashboard.interval_tick w)) =
    Dash.newSessionAlert (dash w) /\
  timers (exec AdminDashboard.interval_tick w) = timers w.
Proof.
  unfold AdminDashboard.interval_tick, exec.
  destruct (configured w); [|split; reflexivity].
  unfold AdminDashboard.fetchSessions, AdminDashboard.mount_sessions. unfold_remote.
  unfold_monad. cbn.
  destruct (hd true (net w)); cbn; split; reflexivity.
Qed.

(** C7, as stated, fails: the held list is empty, the next periodic refresh
    fetches one row, and no alert is raised. *)
Lemma first_request_raises_no_alert :
  Dash.sessions (dash first_request_world) = [] /\
  List.length (Dash.sessions (dash (exec AdminDashboard.interval_tick first_request_world))) = 1 /\
  Dash.newSessionAlert (dash (exec AdminDashboard.interval_tick first_request_world)) = false /\
  timers (exec AdminDashboard.interval_tick first_request_world) =
    timers first_request_world.
Proof. by_computation. Qed.

(** ** Submitting the code *)

Arguments select_single : simpl never.
Arguments js_or_default : simpl never.
Arguments js_and : simpl never.
Arguments truthy : simpl never.
Arguments session_exists : simpl never.

(** What the page being on the code step with an enabled button says about
    the state. *)
Lemma code_step_enabled (s : Wizard.State) (v : VerificationPage.FormView) :
  VerificationPage.view s = Some (VerificationPage.Form v) ->
  VerificationPage.v_field v = VerificationPage.f_code ->
  VerificationPage.v_next_disabled v = false ->
  Wizard.step s = Wizard.form /\ Wizard.formStep s = 2 /\
  Wizard.isSuccess s = false /\ Wizard.isProcessing s = false /\
  Wizard.isVerifying s = false /\
  truthy_string (Wizard.code (Wizard.formData s)) = true.
Proof.
  unfold VerificationPage.view.
  destruct (Wizard.isSuccess s); [discriminate|].
  destruct (Wizard.step s); [discriminate|].
  destruct (Wizard.isProcessing s); [discriminate|].
  destruct (Wizard.formStep s) as [|[|[|n]]]; simpl.
  - intros [= <-]; simpl; discriminate.
  - intros [= <-]; simpl; discriminate.
  - intros [= <-] _; simpl. intros H. apply orb_false_iff in H.
    destruct H as [H1 H2]. apply negb_false_iff in H1. auto 10.
  - destruct n; discriminate.
Qed.

Lemma click_next_is_handleSubmit (w : World) (v : VerificationPage.FormView) :
  VerificationPage.view (wizard w) = Some (VerificationPage.Form v) ->
  VerificationPage.v_field v = VerificationPage.f_code ->
  VerificationPage.v_next_disabled v = false ->
  VerificationPage.click_next w = VerificationPage.handleSubmit (wizard w) w.
Proof.
  intros Hview Hfield Henabled.
  destruct (code_step_enabled _ _ Hview Hfield Henabled) as [_ [Hstep _]].
  unfold VerificationPage.click_next, VerificationPage.handleNext.
  rewrite Hview, Henabled, Hstep. reflexivity.
Qed.

Lemma select_single_Some (tbl : list VerificationSession) (sid : option string)
    (s : VerificationSession) :
  select_single tbl sid = Some s ->
  sid = Some (id s) /\ session_exists tbl (id s) = true /\ In s tbl.
Proof.
  unfold select_single, session_exists.
  destruct sid as [i|]; [|discriminate].
  destruct (filter _ tbl) as [|x [|y r]] eqn:E; try discriminate.
  intros [= ->].
  assert (Hin : In s (filter (fun s0 => id s0 =? i) tbl)) by (rewrite E; left; reflexivity).
  apply filter_In in Hin. destruct Hin as [Hin Hid].
  apply String.eqb_eq in Hid. subst i. repeat split; [|exact Hin].
  apply existsb_exists. exists s. split; [exact Hin | apply String.eqb_refl].
Qed.

(** The code compared against, when the session row is read. *)
Lemma js_or_default_code (c : string) : js_or_default (Some c) "" = c.
Proof.
  unfold js_or_default, truthy_string.
  destruct (c =? "") eqn:E; simpl; [|reflexivity].
  apply String.eqb_eq in E. congruence.
Qed.

Lemma truthy_js_and (a : string) (b : bool) :
  truthy (js_and a b) = truthy_string a && b.
Proof.
  unfold js_and, truthy. destruct (truthy_string a) eqn:E; simpl; [reflexivity|exact E].
Qed.

(** For a non-empty submission the guard on the stored code adds nothing to
    the comparison. *)
Lemma guarded_equality (stored submitted : string) :
  truthy_string submitted = true ->
  truthy (js_and stored (submitted =? stored)) = (submitted =? stored).
Proof.
  intros H. rewrite truthy_js_and. unfold truthy_string in *.
  destruct (stored =? "") eqn:E; simpl; [|reflexivity].
  apply String.eqb_eq in E. subst stored.
  apply negb_true_iff in H. symmetry. exact H.
Qed.

(** The whole effect of [handleSubmit] when the backend is reachable and
    the session row is there. *)
Lemma handleSubmit_online (w : World) (render : Wizard.State)
    (s : VerificationSession)
    (Hnet : online w)
    (Hrow : select_single (verification_sessions w) (Wizard.sessionId render) = Some s) :
  let submitted := Wizard.code (Wizard.formData render) in
  let flag := js_and (code s) (submitted =? code s) in
  let attempt :=
    mkInsert None (Some (id s)) system submitted (Some code_attempt) (Some flag) in
  chat_messages (exec (VerificationPage.handleSubmit render) w) =
    (chat_messages w ++
     [mkMessage (uuid_of (fresh w)) (id s) system submitted code_attempt
                (Some flag) (clock w)])%list /\
  events (VerificationPage.handleSubmit render) w =
    ([ EvSet "VerificationPage" "setIsVerifying";
       EvSelect "verification_sessions" true;
       EvInsertMessage attempt true;
       EvBroadcast (chat_channel (Some (id s))) "code-attempt"
                   (PCodeAttempt submitted flag) true ] ++
     if truthy flag
     then [ EvUpdateStatus (Some (id s)) verified true; EvSleep 1000;
            EvSet "VerificationPage" "setIsVerifying";
            EvSet "VerificationPage" "setCodeError";
            EvSet "VerificationPage" "setIsSuccess" ]
     else [ EvSleep 1000;
            EvSet "VerificationPage" "setIsVerifying";
            EvSet "VerificationPage" "setCodeError";
            EvSet "VerificationPage" "setFormData" ])%list /\
  verification_sessions (exec (VerificationPage.handleSubmit render) w) =
    (if truthy flag
     then map (fun r => if id r =? id s then with_status verified (clock w) r else r)
              (verification_sessions w)
     else verification_sessions w) /\
  wizard (exec (VerificationPage.handleSubmit render) w) =
    (if truthy flag
     then Wizard.setIsSuccess true
            (Wizard.setCodeError false
               (Wizard.setIsVerifying false (Wizard.setIsVerifying true (wizard w))))
     else Wizard.setFormData (Wizard.withCode "")
            (Wizard.setCodeError true
               (Wizard.setIsVerifying false (Wizard.setIsVerifying true (wizard w))))).
Proof.
  intros submitted flag attempt.
  unfold online in Hnet.
  pose proof (online_hd _ Hnet) as H0.
  pose proof (online_hd _ (online_tl _ Hnet)) as H1.
  pose proof (online_hd _ (online_tl _ (online_tl _ Hnet))) as H2.
  pose proof (online_hd _ (online_tl _ (online_tl _ (online_tl _ Hnet)))) as H3.
  destruct (select_single_Some _ _ _ Hrow) as [Hsid [Hex _]].
  rewrite Hsid in Hrow.
  split; [|split; [apply events_intro|split]];
    unfold VerificationPage.handleSubmit; rewrite Hsid; fold submitted;
    unfold_remote; unfold_monad; unfold insert_accepted, chat_channel;
    cbn; rewrite ?H0, ?H1, ?H2, ?Hrow, ?Hex; cbn;
    rewrite ?js_or_default_code; fold flag; fold attempt;
    destruct (truthy flag); cbn; rewrite ?H0, ?H1, ?H2, ?H3, ?Hex; cbn;
    flatten_log; reflexivity.
Qed.



Lemma truthy_flag_true (stored submitted : string) :
  truthy_string submitted = true -> submitted = stored ->
  truthy (js_and stored (submitted =? stored)) = true.
Proof.
  intros H E. rewrite guarded_equality by exact H. apply String.eqb_eq. exact E.
Qed.

Lemma truthy_flag_false (stored submitted : string) :
  truthy_string submitted = true -> submitted <> stored ->
  truthy (js_and stored (submitted =? stored)) = false.
Proof.
  intros H E. rewrite guarded_equality by exact H. apply String.eqb_neq. exact E.
Qed.

(** C2. A submission made with the Verify button, with the backend
    reachable and the session row in the store. If the submitted text is
    the stored code, the status update to verified is sent, every row of
    that id is verified afterwards and the page shows the success view. If
    it is not, no status update is sent, the table of sessions is unchanged,
    the code field is empty again and the page shows the code step with the
    invalid-code message and its contact-support link. *)
Theorem submission_outcome (w : World) (v : VerificationPage.FormView)
    (s : VerificationSession)
    (Hview : VerificationPage.view (wizard w) = Some (VerificationPage.Form v))
    (Hfield : VerificationPage.v_field v = VerificationPage.f_code)
    (Henabled : VerificationPage.v_next_disabled v = false)
    (Hnet : online w)
    (Hrow : select_single (verification_sessions w) (Wizard.sessionId (wizard w)) = Some s) :
  (Wizard.code (Wizard.formData (wizard w)) = code s ->
   In (EvUpdateStatus (Some (id s)) verified true)
      (events VerificationPage.click_next w) /\
   In (with_status verified (clock w) s)
      (verification_sessions (exec VerificationPage.click_next w)) /\
   (forall r, In r (verification_sessions (exec VerificationPage.click_next w)) ->
              id r = id s -> status r = verified) /\
   VerificationPage.view (wizard (exec VerificationPage.click_next w)) =
     Some (VerificationPage.SuccessView (Wizard.mcName (Wizard.formData (wizard w))))) /\
  (Wizard.code (Wizard.formData (wizard w)) <> code s ->
   filter is_status_update (events VerificationPage.click_next w) = [] /\
   verification_sessions (exec VerificationPage.click_next w) =
     verification_sessions w /\
   Wizard.code (Wizard.formData (wizard (exec VerificationPage.click_next w))) = "" /\
   VerificationPage.view (wizard (exec VerificationPage.click_next w)) =
     Some (VerificationPage.Form
             (VerificationPage.mkFormView 2 VerificationPage.f_code ""
                                          true true true))).
Proof.
  pose proof (click_next_is_handleSubmit w v Hview Hfield Henabled) as Hclick.
  destruct (code_step_enabled _ _ Hview Hfield Henabled)
    as [Hform [Hstep [Hsucc [Hproc [_ Hcode]]]]].
  destruct (handleSubmit_online w (wizard w) s Hnet Hrow) as [_ [Hev [Htbl Hwiz]]].
  unfold events, exec in *. rewrite Hclick. split; intros Hcmp.
  - rewrite (truthy_flag_true _ _ Hcode Hcmp) in *.
    rewrite Hev, Htbl, Hwiz. split; [|split; [|split]].
    + simpl. auto 10.
    + destruct (select_single_Some _ _ _ Hrow) as [_ [_ Hin]].
      apply in_map_iff. exists s. rewrite String.eqb_refl. auto.
    + intros r Hin Hid. apply in_map_iff in Hin.
      destruct Hin as [r0 [<- _]].
      destruct (id r0 =? id s) eqn:E; [reflexivity|].
      apply String.eqb_neq in E. contradiction.
    + reflexivity.
  - rewrite (truthy_flag_false _ _ Hcode Hcmp) in *.
    rewrite Hev, Htbl, Hwiz. split; [|split; [|split]]; try reflexivity.
    destruct (wizard w); simpl in *. subst. reflexivity.
Qed.

Lemma submission_outcome_witness :
  online typed_world /\
  verification_sessions (exec VerificationPage.click_next typed_world) =
    [mkSession "uuid-0" "" "a@b.com" "482913" verified 0 30000 false] /\
  VerificationPage.view (wizard (exec VerificationPage.click_next typed_world)) =
    Some (VerificationPage.SuccessView "Notch") /\
  verification_sessions (exec VerificationPage.click_next attempted_world) =
    verification_sessions attempted_world /\
  VerificationPage.view (wizard attempted_world) =
    Some (VerificationPage.Form
            (VerificationPage.mkFormView 2 VerificationPage.f_code ""
                                         true true true)).
Proof.
  pose proof (submission_outcome typed_world
                (VerificationPage.mkFormView 2 VerificationPage.f_code "482913"
                                             false true false)
                (mkSession "uuid-0" "" "a@b.com" "482913" pending 0 30000 false)
                eq_refl eq_refl eq_refl (Forall_nil _) eq_refl) as H.
  split; [apply Forall_nil|].
  split; [vm_compute; reflexivity|].
  split; [exact (proj2 (proj2 (proj2 (proj1 H eq_refl))))|].
  split; vm_compute; reflexivity.
Defined.

Lemma js_or_default_empty (o : option string) :
  (forall c, o = Some c -> c = "") -> js_or_default o "" = "".
Proof.
  intros H. unfold js_or_default. destruct o as [c|]; [|reflexivity].
  rewrite (H c eq_refl). reflexivity.
Qed.

Lemma js_and_empty (b : bool) : js_and "" b = JStr "".
Proof. reflexivity. Qed.



(** ** Status transitions *)

Lemma table_step_refl (t : list VerificationSession) : table_step t t.
Proof.
  rewrite <- (map_id t) at 2. apply rows_updated.
  intros s. split; auto.
Qed.

Lemma status_moves_with_status (st : Status) (now : Z) (s : VerificationSession) :
  st <> pending -> status_moves s (with_status st now s).
Proof.
  intros H. split; [reflexivity|].
  destruct st; [contradiction|simpl; auto|simpl; auto].
Qed.

Lemma status_moves_with_code (c : string) (now : Z) (s : VerificationSession) :
  status_moves s (with_code c now s).
Proof. split; simpl; auto. Qed.

Lemma status_moves_refl (s : VerificationSession) : status_moves s s.
Proof. split; auto. Qed.

Create HintDb tables.
#[local] Hint Resolve table_step_refl status_moves_refl status_moves_with_code : tables.

(** *** Handlers that leave the table of sessions alone *)

Lemma bind_keeps_table {A B} (m : M A) (f : A -> M B) (w : World) :
  verification_sessions (snd (m w)) = verification_sessions w ->
  (forall a w1, verification_sessions (snd (f a w1)) = verification_sessions w1) ->
  verification_sessions (snd (bind m f w)) = verification_sessions w.
Proof. intros Hm Hf. unfold bind. rewrite Hf. exact Hm. Qed.

Lemma bind_table_step_l {A B} (m : M A) (f : A -> M B) (w : World) :
  table_step (verification_sessions w) (verification_sessions (snd (m w))) ->
  (forall a w1, verification_sessions (snd (f a w1)) = verification_sessions w1) ->
  table_step (verification_sessions w) (verification_sessions (snd (bind m f w))).
Proof. intros Hm Hf. unfold bind. rewrite Hf. exact Hm. Qed.

Lemma bind_table_step_r {A B} (m : M A) (f : A -> M B) (w : World) :
  verification_sessions (snd (m w)) = verification_sessions w ->
  (forall a w1, table_step (verification_sessions w1)
                           (verification_sessions (snd (f a w1)))) ->
  table_step (verification_sessions w) (verification_sessions (snd (bind m f w))).
Proof. intros Hm Hf. unfold bind. rewrite <- Hm at 1. apply Hf. Qed.

Section Primitives.

Variable w : World.

Lemma ret_keeps {A} (a : A) :
  verification_sessions (snd (ret a w)) = verification_sessions w.
Proof. reflexivity. Qed.

Lemma emit_keeps (e : Event) :
  verification_sessions (snd (emit e w)) = verification_sessions w.
Proof. reflexivity. Qed.

Lemma remote_keeps :
  verification_sessions (snd (remote w)) = verification_sessions w.
Proof. reflexivity. Qed.

Lemma now_keeps : verification_sessions (snd (now w)) = verification_sessions w.
Proof. reflexivity. Qed.

Lemma randomUUID_keeps :
  verification_sessions (snd (randomUUID w)) = verification_sessions w.
Proof. reflexivity. Qed.

Lemma sleep_keeps (ms : Z) :
  verification_sessions (snd (sleep ms w)) = verification_sessions w.
Proof. reflexivity. Qed.

Lemma setTimeout_keeps (cb : Callback) (ms : Z) :
  verification_sessions (snd (setTimeout cb ms w)) = verification_sessions w.
Proof. reflexivity. Qed.

Lemma set_state_wizard_keeps (n : string) (f : Wizard.State -> Wizard.State) :
  verification_sessions (snd (set_state_wizard n f w)) = verification_sessions w.
Proof. reflexivity. Qed.

Lemma set_state_chat_keeps (n : string) (f : Chat.State -> Chat.State) :
  verification_sessions (snd (set_state_chat n f w)) = verification_sessions w.
Proof. reflexivity. Qed.

Lemma set_state_dash_keeps (n : string) (f : Dash.State -> Dash.State) :
  verification_sessions (snd (set_state_dash n f w)) = verification_sessions w.
Proof. reflexivity. Qed.

Lemma db_insert_message_keeps (p : MessageInsert) :
  verification_sessions (snd (db_insert_message p w)) = verification_sessions w.
Proof. reflexivity. Qed.

Lemma db_delete_messages_keeps (sid : string) :
  verification_sessions (snd (db_delete_messages sid w)) = verification_sessions w.
Proof. reflexivity. Qed.

Lemma db_select_messages_keeps (sid : string) (neq : option MessageType) :
  verification_sessions (snd (db_select_messages sid neq w)) = verification_sessions w.
Proof. reflexivity. Qed.

Lemma db_select_sessions_keeps :
  verification_sessions (snd (db_select_sessions w)) = verification_sessions w.
Proof. reflexivity. Qed.

Lemma db_select_session_keeps (sid : option string) :
  verification_sessions (snd (db_select_session sid w)) = verification_sessions w.
Proof. reflexivity. Qed.

Lemma channel_send_keeps (c e : string) (p : Payload) :
  verification_sessions (snd (channel_send c e p w)) = verification_sessions w.
Proof. reflexivity. Qed.

Lemma db_insert_session_steps (e c : string) :
  table_step (verification_sessions w)
             (verification_sessions (snd (db_insert_session e c pending w))).
Proof.
  unfold db_insert_session. cbn.
  destruct (hd true (net w)); [apply row_created; reflexivity|apply table_step_refl].
Qed.

Lemma db_update_status_steps (key : option string) (st : Status) :
  st <> pending ->
  table_step (verification_sessions w)
             (verification_sessions (snd (db_update_status key st w))).
Proof.
  intros Hst. unfold db_update_status. cbn.
  destruct (hd true (net w)); [|apply table_step_refl].
  apply rows_updated. intros s.
  destruct (key_matches key s);
    [apply status_moves_with_status; exact Hst | apply status_moves_refl].
Qed.

Lemma db_update_code_steps (key c : string) :
  table_step (verification_sessions w)
             (verification_sessions (snd (db_update_code key c w))).
Proof.
  unfold db_update_code. cbn.
  destruct (hd true (net w)); [|apply table_step_refl].
  apply rows_updated. intros s.
  destruct (id s =? key); [apply status_moves_with_code | apply status_moves_refl].
Qed.

Lemma db_delete_session_steps (sid : string) :
  table_step (verification_sessions w)
             (verification_sessions (snd (db_delete_session sid w))).
Proof.
  unfold db_delete_session. cbn.
  destruct (hd true (net w)); [apply rows_deleted|apply table_step_refl].
Qed.

End Primitives.

#[local] Hint Resolve ret_keeps emit_keeps remote_keeps now_keeps randomUUID_keeps
  sleep_keeps setTimeout_keeps set_state_wizard_keeps set_state_chat_keeps
  set_state_dash_keeps db_insert_message_keeps db_delete_messages_keeps
  db_select_messages_keeps db_select_sessions_keeps db_select_session_keeps
  channel_send_keeps : tables.

(** Walks through a handler that does not write the table. *)
Ltac keeps :=
  cbv beta;
  lazymatch goal with
  | |- verification_sessions (snd (bind _ _ _)) = _ =>
      apply bind_keeps_table; [keeps | intros ? ?; keeps]
  | |- verification_sessions (snd ((if ?c then _ else _) _)) = _ =>
      destruct c; keeps
  | |- verification_sessions (snd (if ?c then _ else _)) = _ =>
      destruct c; keeps
  | |- verification_sessions (snd ((match ?x with _ => _ end) _)) = _ =>
      destruct x; keeps
  | |- verification_sessions (snd (match ?x with _ => _ end)) = _ =>
      destruct x; keeps
  | |- verification_sessions (snd (_, _)) = _ => reflexivity
  | |- _ => solve [auto with tables]
  end.

Lemma ChatWindow_effect_keeps (sid : option string) (w : World) :
  verification_sessions (snd (ChatWindow.effect sid w)) = verification_sessions w.
Proof. unfold ChatWindow.effect, ChatWindow.loadMessages. keeps. Qed.

Lemma ChatWindow_handleSend_keeps (sid : option string) (ended : bool)
    (text : string) (w : World) :
  verification_sessions (snd (ChatWindow.handleSend sid ended text w)) =
  verification_sessions w.
Proof. unfold ChatWindow.handleSend. keeps. Qed.

Lemma fetchSessions_keeps (held : list VerificationSession) (w : World) :
  verification_sessions (snd (AdminDashboard.fetchSessions held w)) =
  verification_sessions w.
Proof. unfold AdminDashboard.fetchSessions. keeps. Qed.

Lemma AdminDashboard_effect_keeps (sel : option VerificationSession) (w : World) :
  verification_sessions (snd (AdminDashboard.effect sel w)) = verification_sessions w.
Proof. unfold AdminDashboard.effect, AdminDashboard.loadMessages. keeps. Qed.

Lemma rerender_keeps (before : option VerificationSession) (w : World) :
  verification_sessions (snd (AdminDashboard.rerender before w)) =
  verification_sessions w.
Proof.
  unfold AdminDashboard.rerender.
  destruct (AdminDashboard.same_selection _ _); [reflexivity|].
  apply bind_keeps_table.
  - destruct before; reflexivity.
  - intros _ w1. apply AdminDashboard_effect_keeps.
Qed.

Lemma sendMessage_keeps (text : string) (sel : option VerificationSession)
    (w : World) :
  verification_sessions (snd (AdminDashboard.sendMessage text sel w)) =
  verification_sessions w.
Proof. unfold AdminDashboard.sendMessage, AdminDashboard.read_channelRef. keeps. Qed.

#[local] Hint Resolve ChatWindow_effect_keeps ChatWindow_handleSend_keeps
  fetchSessions_keeps AdminDashboard_effect_keeps rerender_keeps
  sendMessage_keeps : tables.

(** *** Handlers that write the table *)

(** A step that leaves the table alone is a table step. *)
Ltac unchanged :=
  match goal with
  | |- table_step ?t (verification_sessions (snd ?x)) =>
      replace (verification_sessions (snd x)) with t;
        [apply table_step_refl | symmetry]
  end.

Lemma handleSubmit_steps (render : Wizard.State) (w : World) :
  table_step (verification_sessions w)
             (verification_sessions (snd (VerificationPage.handleSubmit render w))).
Proof.
  unfold VerificationPage.handleSubmit.
  apply bind_table_step_r; [keeps|intros _ w1].
  apply bind_table_step_r; [keeps|intros sessionData w2].
  apply bind_table_step_r; [keeps|intros _ w3].
  apply bind_table_step_r; [keeps|intros _ w4].
  destruct (truthy _).
  - apply bind_table_step_l; [apply db_update_status_steps; discriminate|].
    intros _ w5. keeps.
  - unchanged. keeps.
Qed.

Lemma handleNext_steps (render : Wizard.State) (w : World) :
  table_step (verification_sessions w)
             (verification_sessions (snd (VerificationPage.handleNext render w))).
Proof.
  unfold VerificationPage.handleNext.
  destruct (Wizard.formStep render =? 0)%nat.
  - unchanged. keeps.
  - destruct (Wizard.formStep render =? 1)%nat; [|apply handleSubmit_steps].
    apply bind_table_step_r; [keeps|intros _ w1].
    apply bind_table_step_l.
    + unfold VerificationPage.createSessionWithEmail.
      apply bind_table_step_l; [apply db_insert_session_steps|].
      intros a w2. keeps.
    + intros a w2. keeps.
Qed.

Lemma updateSessionStatus_steps (sel : option VerificationSession)
    (sid : string) (d : AdminDashboard.Decision) (w : World) :
  table_step (verification_sessions w)
             (verification_sessions
                (snd (AdminDashboard.updateSessionStatus sel sid d w))).
Proof.
  unfold AdminDashboard.updateSessionStatus.
  apply bind_table_step_l.
  - apply db_update_status_steps. destruct d; discriminate.
  - intros _ w1. keeps.
Qed.

Lemma saveVerificationCode_steps (sel : option VerificationSession)
    (input : string) (w : World) :
  table_step (verification_sessions w)
             (verification_sessions
                (snd (AdminDashboard.saveVerificationCode sel input w))).
Proof.
  unfold AdminDashboard.saveVerificationCode.
  destruct sel as [sel|]; [|apply table_step_refl].
  destruct (negb _); [apply table_step_refl|].
  apply bind_table_step_l; [apply db_update_code_steps|].
  intros _ w1. keeps.
Qed.

Lemma endConversation_steps (sel : option VerificationSession) (w : World) :
  table_step (verification_sessions w)
             (verification_sessions (snd (AdminDashboard.endConversation sel w))).
Proof.
  unfold AdminDashboard.endConversation, AdminDashboard.read_channelRef.
  destruct sel as [sel|]; [|apply table_step_refl].
  apply bind_table_step_r; [keeps|intros ref w1].
  apply bind_table_step_r; [keeps|intros _ w2].
  apply bind_table_step_r; [keeps|intros _ w3].
  apply bind_table_step_r; [keeps|intros _ w4].
  apply bind_table_step_l; [apply db_delete_session_steps|].
  intros _ w5. keeps.
Qed.

(** Every exposed operation changes the table of sessions in one of the
    three ways. *)
Lemma step_table (o : Op) (w : World) :
  table_step (verification_sessions w) (verification_sessions (exec (step o) w)).
Proof.
  unfold exec.
  destruct o; unfold step.
  - (* WStart *) unfold wizard_view, VerificationPage.handleStartVerification.
    unchanged. keeps.
  - (* WType *) unfold wizard_view, VerificationPage.type_field.
    unchanged. keeps.
  - (* WNext *) apply bind_table_step_l.
    + unfold VerificationPage.click_next.
      destruct (VerificationPage.view (wizard w)) as [[| | |fv]|];
        try apply table_step_refl.
      destruct (VerificationPage.v_next_disabled fv);
        [apply table_step_refl | apply handleNext_steps].
    + intros _ w1. unfold wizard_rerender. keeps.
  - (* WBack *) unfold wizard_view. unchanged. keeps.
  - (* WChatToggle *) unfold toggle_chat, close_chat, open_chat. unchanged. keeps.
  - (* WChatOpen *) unfold open_chat. unchanged. keeps.
  - (* WChatClose *) unfold close_chat. unchanged. keeps.
  - (* WChatType *) unchanged. keeps.
  - (* WChatSend *) unfold ChatWindow.click_send. unchanged. keeps.
  - (* DMount *) unfold AdminDashboard.mount. unchanged. keeps.
  - (* DTick *) unfold AdminDashboard.interval_tick. unchanged. keeps.
  - (* DRefresh *) unfold AdminDashboard.click_refresh. unchanged. keeps.
  - (* DSearch *) unchanged. keeps.
  - (* DFilter *) unchanged. keeps.
  - (* DSelect *) unfold AdminDashboard.click_session. unchanged. keeps.
  - (* DDecide *) unfold AdminDashboard.click_status.
    destruct (Dash.selectedSession (dash w)) as [sel|]; [|apply table_step_refl].
    destruct (AdminDashboard.status_buttons_shown (dash w));
      [apply updateSessionStatus_steps | apply table_step_refl].
  - (* DTypeCode *) unchanged. keeps.
  - (* DSetCode *) unfold AdminDashboard.click_set_code.
    destruct (Dash.selectedSession (dash w)) as [sel|]; [|apply table_step_refl].
    destruct (truthy_string (code sel));
      [apply table_step_refl | apply saveVerificationCode_steps].
  - (* DTypeMessage *) unfold has_selection. unchanged. keeps.
  - (* DSend *) unfold AdminDashboard.click_send. unchanged. keeps.
  - (* DEnd *) unfold AdminDashboard.click_end.
    apply bind_table_step_l; [apply endConversation_steps|].
    intros _ w1. keeps.
  - (* FireTimer *) unfold fire_timer.
    destruct (earliest (timers w)) as [[due cb]|]; [|apply table_step_refl].
    unchanged.
    match goal with
    | |- verification_sessions (snd (_ ?w1)) = _ =>
        transitivity (verification_sessions w1); [|reflexivity]
    end.
    unfold run_callback, AdminDashboard.alert_off, VerificationPage.processing_done.
    keeps.
  - (* Net *) apply table_step_refl.
  - (* ToChat *) unfold chat_receives, ChatWindow.on_new_message,
      ChatWindow.on_chat_ended.
    unchanged. keeps.
  - (* ToDash *) unfold dash_receives, AdminDashboard.on_new_message,
      AdminDashboard.on_code_attempt.
    unchanged. keeps.
  - (* Notify *) unfold notify_insert. unchanged. keeps.
Qed.

Lemma run_table (ops : list Op) (w : World) :
  table_steps (verification_sessions w) (verification_sessions (run ops w)).
Proof.
  revert w. induction ops as [|o r IH]; intros w; simpl.
  - apply steps_done.
  - eapply steps_next; [apply step_table | apply IH].
Qed.

Lemma click_status_gated (d : AdminDashboard.Decision) (w : World) :
  AdminDashboard.status_buttons_shown (dash w) = true \/
  exec (step (DDecide d)) w = w.
Proof.
  unfold step, exec, AdminDashboard.click_status.
  destruct (Dash.selectedSession (dash w)) as [sel|] eqn:E; [|right; reflexivity].
  destruct (AdminDashboard.status_buttons_shown (dash w)); [left|right]; reflexivity.
Qed.



(** ** The search box *)

(** The term notch finds the session named Notch and not the one whose
    email is steve@minecraft.net. *)
Example search_notch :
  AdminDashboard.filteredSessions
    (Dash.setSearchTerm "notch"
       (Dash.setSessions
          (fun _ => [ mkSession "a" "Notch" "n@example.org" "" pending 0 0 false;
                      mkSession "b" "Alex" "steve@minecraft.net" "" pending 1 1 false ])
          Dash.init)) =
  [ mkSession "a" "Notch" "n@example.org" "" pending 0 0 false ].
Proof. vm_compute. reflexivity. Qed.

(** ** A conversation *)

(** The user opens the chat and writes; the operator, with the session
    selected, receives the broadcast and answers; the operator then ends
    the conversation and the panel of the user shows the end. *)
Example conversation :
  let m := Chat.mkLocal "uuid-1" user "hello" 30000 in
  let w1 := run [ WChatOpen; WChatType " hello "; WChatSend ] issued_world in
  let w2 := run [ ToDash "new-message" (PMessage m); DTypeMessage "hi"; DSend ] w1 in
  let w3 := run [ DEnd; ToChat "chat-ended" PEmpty ] w2 in
  Chat.messages (chat w1) = [m] /\
  map m_message (chat_messages w2) = ["hello"; "hi"] /\
  map Dash.message (Dash.messages (dash w2)) = ["hello"; "hi"] /\
  chat_messages w3 = [] /\ verification_sessions w3 = [] /\
  Chat.chatEnded (chat w3) = true /\
  Dash.selectedSession (dash w3) = None.
Proof. by_computation. Qed.

(* ------------------------------------------------------------------ *)
(** * Further properties of the handlers *)

(** ** Sends that do nothing *)

(** X1. A send in the chat panel with a blank text, without a session or
    after the chat has ended, and a send in the dashboard with a blank text
    or without a selected session, leave the whole world as it was: nothing
    is appended, inserted or broadcast. *)
Theorem blank_send_is_noop (w : World) (sessionId : option string)
    (chatEnded : bool) (text newMessage : string)
    (selectedSession : option VerificationSession)
    (Huser : truthy_string (trim text) = false \/ truthy_id sessionId = false \/
             chatEnded = true)
    (Hadmin : truthy_string (trim newMessage) = false \/ selectedSession = None) :
  ChatWindow.handleSend sessionId chatEnded text w = (tt, w) /\
  AdminDashboard.sendMessage newMessage selectedSession w = (tt, w).
Proof.
  split.
  - unfold ChatWindow.handleSend.
    destruct Huser as [H|[H|H]]; rewrite H; cbn [negb orb];
      rewrite ?orb_true_r; reflexivity.
  - unfold AdminDashboard.sendMessage.
    destruct Hadmin as [H|H].
    + destruct selectedSession; [rewrite H|]; reflexivity.
    + rewrite H. reflexivity.
Qed.

Lemma blank_send_is_noop_witness :
  ChatWindow.handleSend (Some "uuid-0") false "   " issued_world = (tt, issued_world) /\
  AdminDashboard.sendMessage "hello" None issued_world = (tt, issued_world).
Proof.
  exact (blank_send_is_noop issued_world (Some "uuid-0") false "   " "hello" None
           (or_introl eq_refl) (or_intror eq_refl)).
Defined.

(** ** Issuing the code *)

Lemma trim_start_idem (l : list ascii) : trim_start (trim_start l) = trim_start l.
Proof.
  induction l as [|c r IH]; simpl; [reflexivity|].
  destruct (js_whitespace c) eqn:E; [exact IH|]. simpl. rewrite E. reflexivity.
Qed.

Lemma trim_start_snoc (l : list ascii) (c : ascii) :
  js_whitespace c = false ->
  trim_start (l ++ [c])%list = (trim_start l ++ [c])%list.
Proof.
  intros Hc. induction l as [|d r IH]; simpl.
  - rewrite Hc. reflexivity.
  - destruct (js_whitespace d); [exact IH|reflexivity].
Qed.

(** Trimming the end of a list that is already trimmed at the start leaves
    it trimmed at the start. *)
Lemma trim_start_trim_end (l : list ascii) :
  trim_start l = l ->
  trim_start (rev (trim_start (rev l))) = rev (trim_start (rev l)).
Proof.
  destruct l as [|c r]; [reflexivity|]. simpl.
  destruct (js_whitespace c) eqn:E.
  - intros H. exfalso.
    assert (Hlen : (List.length (trim_start r) <= List.length r)%nat).
    { clear. induction r as [|d r IH]; simpl; [lia|].
      destruct (js_whitespace d); simpl; lia. }
    rewrite H in Hlen. simpl in Hlen. lia.
  - intros _. rewrite trim_start_snoc by exact E.
    rewrite rev_app_distr. simpl. rewrite E. reflexivity.
Qed.

Lemma trim_idem (s : string) : trim (trim s) = trim s.
Proof.
  unfold trim. rewrite list_ascii_of_string_of_list_ascii.
  set (l := trim_start (list_ascii_of_string s)).
  rewrite (trim_start_trim_end l) by apply trim_start_idem.
  rewrite rev_involutive, trim_start_idem. reflexivity.
Qed.

Lemma saveVerificationCode_table (w : World) (sel : VerificationSession)
    (codeInput : string) :
  truthy_string (trim codeInput) = true ->
  hd true (net w) = true ->
  verification_sessions
    (exec (AdminDashboard.saveVerificationCode (Some sel) codeInput) w) =
    map (fun s => if id s =? id sel then with_code (trim codeInput) (clock w) s else s)
        (verification_sessions w).
Proof.
  intros Hinput Hok.
  unfold AdminDashboard.saveVerificationCode. rewrite Hinput. cbn [negb].
  unfold_remote. unfold_monad. cbn. rewrite Hok. reflexivity.
Qed.

(** X2. Saving a non-blank code for the selected session with the backend
    reachable: in the store every row of that id gets the trimmed input as
    its code, which is not empty and has no white space around it, every
    other row and every status stay as they were, and the input of the
    dashboard is emptied. *)
Theorem save_code_stores_trimmed (w : World) (sel : VerificationSession)
    (codeInput : string)
    (Hinput : truthy_string (trim codeInput) = true)
    (Hok : hd true (net w) = true) :
  verification_sessions
    (exec (AdminDashboard.saveVerificationCode (Some sel) codeInput) w) =
    map (fun s => if id s =? id sel then with_code (trim codeInput) (clock w) s else s)
        (verification_sessions w) /\
  (forall r,
      In r (verification_sessions
              (exec (AdminDashboard.saveVerificationCode (Some sel) codeInput) w)) ->
      (id r = id sel ->
       code r = trim codeInput /\ truthy_string (code r) = true /\
       trim (code r) = code r) /\
      (id r <> id sel -> In r (verification_sessions w))) /\
  map status
      (verification_sessions
         (exec (AdminDashboard.saveVerificationCode (Some sel) codeInput) w)) =
    map status (verification_sessions w) /\
  Dash.codeInput
    (dash (exec (AdminDashboard.saveVerificationCode (Some sel) codeInput) w)) = "".
Proof.
  pose proof (saveVerificationCode_table w sel codeInput Hinput Hok) as Htbl.
  split; [exact Htbl|]. split; [|split].
  - rewrite Htbl. intros r Hin. apply in_map_iff in Hin.
    destruct Hin as [r0 [<- Hin0]].
    destruct (id r0 =? id sel) eqn:E.
    + split; [|intros Hne; apply String.eqb_eq in E; simpl in Hne; contradiction].
      intros _. simpl. rewrite trim_idem. auto.
    + split; [|intros _; exact Hin0].
      intros Heq. apply String.eqb_neq in E. contradiction.
  - rewrite Htbl, map_map. apply map_ext. intros s.
    destruct (id s =? id sel); reflexivity.
  - unfold AdminDashboard.saveVerificationCode. rewrite Hinput. cbn [negb].
    unfold_remote. unfold_monad. cbn. reflexivity.
Qed.

Lemma save_code_stores_trimmed_witness :
  truthy_string (trim " 482913 ") = true /\
  Dash.codeInput
    (dash (exec (AdminDashboard.saveVerificationCode
                   (Some (mkSession "uuid-0" "" "a@b.com" "" pending 0 0 false))
                   " 482913 ")
                (run [DMount; DSelect 0] awaiting_code_world))) = "".
Proof.
  split; [reflexivity|].
  exact (proj2 (proj2 (proj2
           (save_code_stores_trimmed (run [DMount; DSelect 0] awaiting_code_world)
              (mkSession "uuid-0" "" "a@b.com" "" pending 0 0 false)
              " 482913 " eq_refl eq_refl)))).
Defined.

Example save_code_example :
  map code
      (verification_sessions
         (run [DMount; DSelect 0; DTypeCode " 482913 "; DSetCode] awaiting_code_world))
  = ["482913"].
Proof. vm_compute. reflexivity. Qed.

(** X3. Saving a non-blank code for the session the dashboard has selected,
    whatever the outcomes of the remote calls: the copy of the selected
    session held by the dashboard carries the trimmed code afterwards and
    the Set Code control does nothing any more; when the update failed, the
    store still has the table of sessions it had. *)
Theorem save_code_local_regardless (w : World) (outcomes : list bool)
    (sel : VerificationSession) (codeInput : string)
    (Hsel : Dash.selectedSession (dash w) = Some sel)
    (Hinput : truthy_string (trim codeInput) = true) :
  option_map code
    (Dash.selectedSession
       (dash (exec (AdminDashboard.saveVerificationCode (Some sel) codeInput)
                   (set_net outcomes w)))) = Some (trim codeInput) /\
  AdminDashboard.click_set_code
    (exec (AdminDashboard.saveVerificationCode (Some sel) codeInput)
          (set_net outcomes w)) =
    (tt, exec (AdminDashboard.saveVerificationCode (Some sel) codeInput)
              (set_net outcomes w)) /\
  (hd true outcomes = false ->
   verification_sessions
     (exec (AdminDashboard.saveVerificationCode (Some sel) codeInput)
           (set_net outcomes w)) = verification_sessions w).
Proof.
  unfold AdminDashboard.click_set_code, AdminDashboard.saveVerificationCode.
  rewrite Hinput. cbn [negb].
  unfold_remote. unfold_monad. cbn. rewrite Hsel. cbn. rewrite Hinput.
  repeat split. intros Hfail. rewrite Hfail. reflexivity.
Qed.

Lemma save_code_local_regardless_witness :
  verification_sessions
    (exec (AdminDashboard.saveVerificationCode
             (Some (mkSession "uuid-0" "" "a@b.com" "" pending 0 0 false)) "482913")
          (set_net [false] (run [DMount; DSelect 0] awaiting_code_world))) =
  verification_sessions (run [DMount; DSelect 0] awaiting_code_world).
Proof.
  exact (proj2 (proj2
           (save_code_local_regardless
              (run [DMount; DSelect 0] awaiting_code_world) [false]
              (mkSession "uuid-0" "" "a@b.com" "" pending 0 0 false) "482913"
              eq_refl eq_refl)) eq_refl).
Defined.

(** ** Deciding *)

(** X4. A click on Verify or Reject for a selected session that the
    dashboard holds as pending, whatever the outcome of the remote update:
    the copy of the selected session and every entry of that id in the
    local list carry the decided status afterwards, the two buttons are
    gone, and a further click changes nothing; when the update failed, the
    store still has the table of sessions it had. *)
Theorem decision_local_regardless (w : World) (outcomes : list bool)
    (sel : VerificationSession) (d d' : AdminDashboard.Decision)
    (Hsel : Dash.selectedSession (dash w) = Some sel)
    (Hpending : status sel = pending) :
  option_map status
    (Dash.selectedSession
       (dash (exec (AdminDashboard.click_status d) (set_net outcomes w)))) =
    Some (AdminDashboard.decided d) /\
  (forall s,
      In s (Dash.sessions
              (dash (exec (AdminDashboard.click_status d) (set_net outcomes w)))) ->
      id s = id sel -> status s = AdminDashboard.decided d) /\
  AdminDashboard.status_buttons_shown
    (dash (exec (AdminDashboard.click_status d) (set_net outcomes w))) = false /\
  AdminDashboard.click_status d'
    (exec (AdminDashboard.click_status d) (set_net outcomes w)) =
    (tt, exec (AdminDashboard.click_status d) (set_net outcomes w)) /\
  (hd true outcomes = false ->
   verification_sessions (exec (AdminDashboard.click_status d) (set_net outcomes w)) =
     verification_sessions w).
Proof.
  unfold AdminDashboard.click_status, AdminDashboard.status_buttons_shown,
    AdminDashboard.updateSessionStatus.
  unfold_remote. unfold_monad. cbn. rewrite Hsel. cbn. rewrite Hpending. cbn.
  rewrite ?String.eqb_refl. cbn. rewrite !Hsel. cbn.
  split; [reflexivity|]. split; [|split; [|split]].
  - intros s Hin Hid. apply in_map_iff in Hin. destruct Hin as [s0 [<- _]].
    destruct (id s0 =? id sel) eqn:E; [reflexivity|].
    apply String.eqb_neq in E. contradiction.
  - destruct d; reflexivity.
  - destruct d; reflexivity.
  - intros Hfail. rewrite Hfail. reflexivity.
Qed.

Lemma decision_local_regardless_witness :
  AdminDashboard.status_buttons_shown
    (dash (exec (AdminDashboard.click_status AdminDashboard.to_verified)
                (set_net [false] issued_world))) = false /\
  map status
      (verification_sessions
         (exec (AdminDashboard.click_status AdminDashboard.to_verified)
               (set_net [false] issued_world))) = [pending].
Proof.
  pose proof (decision_local_regardless issued_world [false]
                (mkSession "uuid-0" "" "a@b.com" "482913" pending 0 0 false)
                AdminDashboard.to_verified AdminDashboard.to_rejected
                eq_refl eq_refl) as H.
  split.
  - exact (proj1 (proj2 (proj2 H))).
  - exact (f_equal (map status) (proj2 (proj2 (proj2 (proj2 H))) eq_refl)).
Defined.

(** ** From the issued code to the verified session *)

Lemma select_single_map (f : VerificationSession -> VerificationSession)
    (tbl : list VerificationSession) (sid : option string) :
  (forall s, id (f s) = id s) ->
  select_single (map f tbl) sid = option_map f (select_single tbl sid).
Proof.
  intros Hid. unfold select_single. destruct sid as [i|]; [|reflexivity].
  assert (E : filter (fun s => id s =? i) (map f tbl) =
              map f (filter (fun s => id s =? i) tbl)).
  { induction tbl as [|x r IH]; simpl; [reflexivity|].
    rewrite Hid. destruct (id x =? i); simpl; rewrite IH; reflexivity. }
  rewrite E. destruct (filter _ tbl) as [|x [|y r]]; reflexivity.
Qed.

(** X5. The operator saves a non-blank code for a session and the user of
    that session then submits, both with the backend reachable. If the
    submitted text is the trimmed code, every row of the session ends up
    verified and the page is in its success state; if it is anything else,
    including the untrimmed input, the table of sessions is as the operator
    left it and the page shows the error. *)
Theorem issued_code_verifies (w : World) (sel s : VerificationSession)
    (codeInput : string) (render : Wizard.State)
    (Hinput : truthy_string (trim codeInput) = true)
    (Hnet : online w)
    (Hrow : select_single (verification_sessions w) (Some (id sel)) = Some s)
    (Hsid : Wizard.sessionId render = Some (id sel)) :
  (Wizard.code (Wizard.formData render) = trim codeInput ->
   (forall r,
       In r (verification_sessions
               (exec (VerificationPage.handleSubmit render)
                     (exec (AdminDashboard.saveVerificationCode (Some sel) codeInput) w))) ->
       id r = id sel -> status r = verified) /\
   Wizard.isSuccess
     (wizard (exec (VerificationPage.handleSubmit render)
                   (exec (AdminDashboard.saveVerificationCode (Some sel) codeInput) w)))
     = true) /\
  (Wizard.code (Wizard.formData render) <> trim codeInput ->
   verification_sessions
     (exec (VerificationPage.handleSubmit render)
           (exec (AdminDashboard.saveVerificationCode (Some sel) codeInput) w)) =
     verification_sessions
       (exec (AdminDashboard.saveVerificationCode (Some sel) codeInput) w) /\
   Wizard.codeError
     (wizard (exec (VerificationPage.handleSubmit render)
                   (exec (AdminDashboard.saveVerificationCode (Some sel) codeInput) w)))
     = true).
Proof.
  set (w1 := exec (AdminDashboard.saveVerificationCode (Some sel) codeInput) w).
  pose proof (saveVerificationCode_table w sel codeInput Hinput (online_hd _ Hnet))
    as Htbl.
  fold w1 in Htbl.
  assert (Hnet1 : online w1).
  { unfold online, w1, AdminDashboard.saveVerificationCode.
    rewrite Hinput. cbn [negb]. unfold_remote. unfold_monad. cbn.
    apply online_tl. exact Hnet. }
  assert (Hrow1 : select_single (verification_sessions w1) (Wizard.sessionId render) =
                  Some (with_code (trim codeInput) (clock w) s)).
  { rewrite Htbl, Hsid, select_single_map.
    - rewrite Hrow. simpl.
      destruct (select_single_Some _ _ _ Hrow) as [Hid _].
      injection Hid as Hid. rewrite <- Hid, String.eqb_refl. reflexivity.
    - intros x. destruct (id x =? id sel); reflexivity. }
  destruct (handleSubmit_online w1 render _ Hnet1 Hrow1) as [_ [_ [Htbl2 Hwiz2]]].
  cbn [code with_code id] in Htbl2, Hwiz2.
  rewrite truthy_js_and, Hinput in Htbl2, Hwiz2. cbn [andb] in Htbl2, Hwiz2.
  destruct (select_single_Some _ _ _ Hrow) as [Hid _]. injection Hid as Hid.
  split; intros Hcmp.
  - apply String.eqb_eq in Hcmp. rewrite Hcmp in Htbl2, Hwiz2.
    rewrite Htbl2, Hwiz2. split; [|reflexivity].
    intros r Hin Hr. apply in_map_iff in Hin. destruct Hin as [r0 [<- _]].
    destruct (id r0 =? id s) eqn:E; [reflexivity|].
    apply String.eqb_neq in E. rewrite Hid in Hr. contradiction.
  - apply String.eqb_neq in Hcmp. rewrite Hcmp in Htbl2, Hwiz2.
    rewrite Htbl2, Hwiz2. split; reflexivity.
Qed.

Lemma issued_code_verifies_witness :
  Wizard.isSuccess
    (wizard
       (exec (VerificationPage.handleSubmit
                (Wizard.setFormData (Wizard.withCode "482913")
                                    (wizard awaiting_code_world)))
             (exec (AdminDashboard.saveVerificationCode
                      (Some (mkSession "uuid-0" "" "a@b.com" "" pending 0 0 false))
                      " 482913 ")
                   awaiting_code_world))) = true.
Proof.
  exact (proj2 (proj1
           (issued_code_verifies awaiting_code_world
              (mkSession "uuid-0" "" "a@b.com" "" pending 0 0 false)
              (mkSession "uuid-0" "" "a@b.com" "" pending 0 0 false)
              " 482913 "
              (Wizard.setFormData (Wizard.withCode "482913")
                                  (wizard awaiting_code_world))
              eq_refl (Forall_nil _) eq_refl eq_refl) eq_refl)).
Defined.

(** ** The counters and the search box *)

(** X6. The three status counters of the dashboard add up to the total
    counter, for every list of sessions it holds. *)
Theorem stats_partition (s : Dash.State) :
  (pending_sessions (stats s) + verified_sessions (stats s) +
   rejected_sessions (stats s) = total_sessions (stats s))%nat.
Proof.
  unfold stats, count_status. simpl.
  induction (Dash.sessions s) as [|x r IH]; simpl; [reflexivity|].
  destruct (status x); simpl; lia.
Qed.

Lemma prefix_app (p s : string) :
  String.prefix p s = true <-> exists b, s = p ++ b.
Proof.
  revert s. induction p as [|c p IH]; intros s.
  - split; [intros _; exists s; reflexivity | intros _; destruct s; reflexivity].
  - destruct s as [|d s]; simpl.
    + split; [discriminate|intros [b Hb]; discriminate].
    + destruct (ascii_dec c d) as [->|Hne].
      * rewrite IH. split; intros [b Hb]; exists b; [rewrite Hb; reflexivity|].
        injection Hb as Hb. exact Hb.
      * split; [discriminate|]. intros [b Hb]. injection Hb as Hc _. congruence.
Qed.

Lemma includes_cons (c : ascii) (s sub : string) :
  includes (String c s) sub = String.prefix sub (String c s) || includes s sub.
Proof. reflexivity. Qed.

Lemma includes_nil (sub : string) : includes "" sub = String.prefix sub "" || false.
Proof. reflexivity. Qed.

(** [includes] is the substring test. *)
Lemma includes_substring (s sub : string) :
  includes s sub = true <-> exists a b, s = a ++ sub ++ b.
Proof.
  induction s as [|c s IH].
  - rewrite includes_nil, orb_false_r, prefix_app. split.
    + intros [b Hb]. exists "", b. exact Hb.
    + intros [a [b Hb]]. destruct a; [exists b; exact Hb|discriminate].
  - rewrite includes_cons, orb_true_iff, IH, prefix_app. split.
    + intros [[b Hb]|[a [b Hb]]].
      * exists "", b. exact Hb.
      * exists (String c a), b. simpl. rewrite Hb. reflexivity.
    + intros [a [b Hb]]. destruct a as [|d a].
      * left. exists b. exact Hb.
      * right. injection Hb as _ Hb. exists a, b. exact Hb.
Qed.

(** X7. A session is in the filtered list exactly when it is in the list
    held by the dashboard, the lower-cased search term occurs as a
    substring of its lower-cased name or of its lower-cased email, and its
    status is the one of the status filter, if one is set. With an empty
    term and no status filter the filtered list is the whole list. *)
Theorem filtered_sessions_spec (s : Dash.State) (x : VerificationSession) :
  (In x (AdminDashboard.filteredSessions s) <->
   In x (Dash.sessions s) /\
   ((exists a b, toLowerCase (mc_name x) = a ++ toLowerCase (Dash.searchTerm s) ++ b) \/
    (exists a b, toLowerCase (email x) = a ++ toLowerCase (Dash.searchTerm s) ++ b)) /\
   match Dash.filter s with
   | Dash.all => True
   | Dash.only st => status x = st
   end) /\
  AdminDashboard.filteredSessions (Dash.setSearchTerm "" (Dash.setFilter Dash.all s)) =
    Dash.sessions s.
Proof.
  split.
  - unfold AdminDashboard.filteredSessions.
    rewrite filter_In, andb_true_iff, orb_true_iff, !includes_substring.
    assert (Hst : match Dash.filter s with
                  | Dash.all => true
                  | Dash.only st => Status_eqb (status x) st
                  end = true <->
                  match Dash.filter s with
                  | Dash.all => True
                  | Dash.only st => status x = st
                  end).
    { destruct (Dash.filter s) as [|st]; [tauto|].
      destruct (status x), st; simpl; intuition congruence. }
    rewrite Hst. tauto.
  - unfold AdminDashboard.filteredSessions. simpl.
    induction (Dash.sessions s) as [|y r IH]; simpl; [reflexivity|].
    assert (E : includes (toLowerCase (mc_name y)) "" = true)
      by (apply includes_substring; exists "", (toLowerCase (mc_name y)); reflexivity).
    rewrite E. simpl. rewrite IH. reflexivity.
Qed.

(** ** The order of the lists *)

Section SortedBy.

Context {A : Type} (le : A -> A -> bool) (R : A -> A -> Prop).
Hypothesis le_R : forall a b, le a b = true <-> R a b.
Hypothesis R_total : forall a b, R a b \/ R b a.
Hypothesis R_trans : forall a b c, R a b -> R b c -> R a c.

Lemma insert_by_perm (x : A) (l : list A) : Permutation (x :: l) (insert_by le x l).
Proof.
  induction l as [|y r IH]; simpl; [apply Permutation_refl|].
  destruct (le x y); [apply Permutation_refl|].
  eapply perm_trans; [apply perm_swap|]. apply perm_skip. exact IH.
Qed.

Lemma sort_by_perm (l : list A) : Permutation l (sort_by le l).
Proof.
  induction l as [|x r IH]; simpl; [apply perm_nil|].
  eapply perm_trans; [apply perm_skip; exact IH | apply insert_by_perm].
Qed.

Lemma not_le_R (a b : A) : le a b = false -> R b a.
Proof.
  intros H. destruct (R_total a b) as [Hab|Hba]; [|exact Hba].
  apply le_R in Hab. congruence.
Qed.

Lemma insert_by_sorted (x : A) (l : list A) :
  Sorted R l -> Sorted R (insert_by le x l).
Proof.
  induction 1 as [|y r Hs IH Hhd]; simpl.
  - constructor; constructor.
  - destruct (le x y) eqn:E.
    + constructor; [constructor; assumption|]. constructor. apply le_R. exact E.
    + constructor; [exact IH|].
      destruct r as [|z r]; simpl.
      * constructor. apply not_le_R. exact E.
      * destruct (le x z).
        -- constructor. apply not_le_R. exact E.
        -- constructor. inversion Hhd; assumption.
Qed.

Lemma sort_by_sorted (l : list A) : StronglySorted R (sort_by le l).
Proof.
  apply Sorted_StronglySorted; [exact R_trans|].
  induction l as [|x r IH]; simpl; [constructor|].
  apply insert_by_sorted. exact IH.
Qed.

End SortedBy.

(** X8. When the fetch of the session list returns, the list held by the
    dashboard is a rearrangement of the table in which every entry was
    created no earlier than every entry after it; the rows of a transcript
    query are a rearrangement of the messages of the session (without the
    excluded kind) in which every row was created no later than every row
    after it. *)
Theorem lists_are_ordered (w : World) (held : list VerificationSession)
    (sid : string) (neq : option MessageType)
    (Hok : hd true (net w) = true) :
  (Permutation (verification_sessions w)
               (Dash.sessions (dash (exec (AdminDashboard.fetchSessions held) w))) /\
   StronglySorted (fun a b => (created_at b <= created_at a)%Z)
                  (Dash.sessions (dash (exec (AdminDashboard.fetchSessions held) w)))) /\
  (fst (db_select_messages sid neq w) = Some (select_messages (chat_messages w) sid neq) /\
   Permutation
     (filter (fun m => (session_id m =? sid) &&
                       match neq with
                       | Some t => negb (MessageType_eqb (message_type m) t)
                       | None => true
                       end) (chat_messages w))
     (select_messages (chat_messages w) sid neq) /\
   StronglySorted (fun a b => (m_created_at a <= m_created_at b)%Z)
                  (select_messages (chat_messages w) sid neq)).
Proof.
  split.
  - assert (E : Dash.sessions (dash (exec (AdminDashboard.fetchSessions held) w)) =
                select_sessions (verification_sessions w)).
    { unfold AdminDashboard.fetchSessions. unfold_remote. unfold_monad.
      cbn -[Nat.ltb select_sessions]. rewrite Hok. cbn -[Nat.ltb select_sessions].
      reflexivity. }
    rewrite E. unfold select_sessions. split.
    + apply sort_by_perm.
    + apply sort_by_sorted.
      * intros a b. apply Z.leb_le.
      * intros a b. lia.
      * intros a b c. lia.
  - split; [|split].
    + unfold db_select_messages. cbn. rewrite Hok. reflexivity.
    + unfold select_messages. apply sort_by_perm.
    + unfold select_messages. apply sort_by_sorted.
      * intros a b. apply Z.leb_le.
      * intros a b. lia.
      * intros a b c. lia.
Qed.

Lemma lists_are_ordered_witness :
  hd true (net attempted_world) = true /\
  Permutation (verification_sessions attempted_world)
              (Dash.sessions
                 (dash (exec (AdminDashboard.fetchSessions []) attempted_world))).
Proof.
  split; [reflexivity|].
  exact (proj1 (proj1 (lists_are_ordered attempted_world [] "uuid-0" None eq_refl))).
Defined.

(** ** The email step, when the insert succeeds *)

Lemma uuid_truthy (n : nat) : truthy_string (uuid_of n) = true.
Proof. unfold uuid_of. reflexivity. Qed.

(** X9. Continue on the email step with the insert succeeding, whatever
    session id the page held before: the store gains one pending row with
    the entered email and an empty code, the page holds the id of that row
    and is processing, one timeout of 30000 ms is pending, and until it
    fires the Continue button does nothing; its callback ends the
    processing and moves the form to the code step. *)
Theorem email_step_success (w : World)
    (Hstep : Wizard.formStep (wizard w) = 1)
    (Hok : hd true (net w) = true) :
  verification_sessions (exec (VerificationPage.handleNext (wizard w)) w) =
    (verification_sessions w ++
     [mkSession (uuid_of (fresh w)) "" (Wizard.email (Wizard.formData (wizard w))) ""
                pending (clock w) (clock w) false])%list /\
  wizard (exec (VerificationPage.handleNext (wizard w)) w) =
    Wizard.setSessionId (Some (uuid_of (fresh w)))
      (Wizard.setIsProcessing true (wizard w)) /\
  timers (exec (VerificationPage.handleNext (wizard w)) w) =
    (timers w ++ [((clock w + 30000)%Z, CbProcessingDone)])%list /\
  VerificationPage.click_next (exec (VerificationPage.handleNext (wizard w)) w) =
    (tt, exec (VerificationPage.handleNext (wizard w)) w) /\
  wizard (exec VerificationPage.processing_done
               (exec (VerificationPage.handleNext (wizard w)) w)) =
    Wizard.setFormStep (fun _ => 2)
      (Wizard.setIsProcessing false
         (Wizard.setSessionId (Some (uuid_of (fresh w)))
            (Wizard.setIsProcessing true (wizard w)))).
Proof.
  unfold VerificationPage.handleNext. rewrite Hstep. simpl Nat.eqb. cbv iota.
  unfold VerificationPage.createSessionWithEmail, VerificationPage.processing_done,
    VerificationPage.click_next.
  unfold_remote. unfold_monad. cbn -[VerificationPage.view]. rewrite Hok.
  cbn -[VerificationPage.view]. rewrite uuid_truthy.
  cbn -[VerificationPage.view].
  repeat split.
  unfold VerificationPage.view. cbn.
  destruct (Wizard.isSuccess (wizard w)); [reflexivity|].
  destruct (Wizard.step (wizard w)); reflexivity.
Qed.

Lemma email_step_success_witness :
  Wizard.formStep (wizard (set_net [] email_step_offline)) = 1 /\
  timers (exec (VerificationPage.handleNext (wizard (set_net [] email_step_offline)))
               (set_net [] email_step_offline)) = [(30000%Z, CbProcessingDone)].
Proof.
  split; [reflexivity|].
  exact (proj1 (proj2 (proj2
           (email_step_success (set_net [] email_step_offline) eq_refl eq_refl)))).
Defined.

(** ** The unread badge *)

Lemma notify_admin_counts (w : World) :
  truthy_id (Wizard.sessionId (wizard w)) = true ->
  Wizard.isChatOpen (wizard w) = false ->
  wizard (exec (step (Notify admin)) w) =
    Wizard.setUnreadCount (fun prev => prev + 1)%nat (wizard w).
Proof.
  intros Hsid Hclosed. unfold step, exec, notify_insert.
  rewrite Hsid, Hclosed. reflexivity.
Qed.

(** X10. With a session and the chat panel closed, [n] row-insert
    notifications for operator messages raise the unread count by [n], and
    the badge shows the count when it is positive; a notification for any
    other sender changes nothing; the chat button resets the count, so no
    badge is shown after it, while opening the panel from a support link
    leaves the count as it was. *)
Theorem unread_badge_counts (w : World) (n : nat) (from : Sender)
    (Hsid : truthy_id (Wizard.sessionId (wizard w)) = true)
    (Hclosed : Wizard.isChatOpen (wizard w) = false) :
  Wizard.unreadCount (wizard (run (repeat (Notify admin) n) w)) =
    (Wizard.unreadCount (wizard w) + n)%nat /\
  badge (wizard (run (repeat (Notify admin) (S n)) w)) =
    Some (Wizard.unreadCount (wizard w) + S n)%nat /\
  (from <> admin -> step (Notify from) w = (tt, w)) /\
  badge (wizard (exec toggle_chat w)) = None /\
  Wizard.unreadCount (wizard (exec open_chat w)) = Wizard.unreadCount (wizard w).
Proof.
  assert (Hrun : forall k w0,
             truthy_id (Wizard.sessionId (wizard w0)) = true ->
             Wizard.isChatOpen (wizard w0) = false ->
             Wizard.unreadCount (wizard (run (repeat (Notify admin) k) w0)) =
               (Wizard.unreadCount (wizard w0) + k)%nat /\
             Wizard.isChatOpen (wizard (run (repeat (Notify admin) k) w0)) = false).
  { induction k as [|k IH]; intros w0 H1 H2; cbn [repeat run].
    - split; [lia|exact H2].
    - pose proof (notify_admin_counts w0 H1 H2) as E.
      destruct (IH (exec (step (Notify admin)) w0)) as [Hc Ho].
      + rewrite E. exact H1.
      + rewrite E. exact H2.
      + rewrite Hc, Ho, E. simpl. split; [lia|reflexivity]. }
  split; [apply Hrun; assumption|]. split; [|split; [|split]].
  - destruct (Hrun (S n) w Hsid Hclosed) as [Hc Ho].
    unfold badge. rewrite Hc, Ho.
    replace (0 <? Wizard.unreadCount (wizard w) + S n)%nat with true; [reflexivity|].
    symmetry. apply Nat.ltb_lt. lia.
  - intros Hfrom. unfold step, notify_insert. rewrite Hsid, Hclosed.
    destruct from; [reflexivity|contradiction|reflexivity].
  - unfold toggle_chat, open_chat, exec. rewrite Hclosed.
    unfold ChatWindow.effect, ChatWindow.loadMessages. unfold_remote. unfold_monad.
    cbn. reflexivity.
  - unfold open_chat, exec. rewrite Hclosed.
    unfold ChatWindow.effect, ChatWindow.loadMessages. unfold_remote. unfold_monad.
    cbn.
    repeat (match goal with
            | |- context [if ?c then _ else _] => destruct c
            | |- context [match ?x with Some _ => _ | None => _ end] => destruct x
            end; cbn).
    all: reflexivity.
Qed.

Lemma unread_badge_counts_witness :
  badge (wizard (run (repeat (Notify admin) 3) issued_world)) = Some 3.
Proof.
  exact (proj1 (proj2 (unread_badge_counts issued_world 2 admin eq_refl eq_refl))).
Defined.

(** ** Invariants of every run *)

Lemma bind_preserves (P : World -> Prop) {A B} (m : M A) (f : A -> M B) (w : World) :
  P (snd (m w)) ->
  (forall a w1, P w1 -> P (snd (f a w1))) ->
  P (snd (bind m f w)).
Proof. intros Hm Hf. unfold bind. apply Hf. exact Hm. Qed.

Ltac unfold_handlers :=
  unfold VerificationPage.handleStartVerification, VerificationPage.type_field,
    VerificationPage.click_next, VerificationPage.handleNext,
    VerificationPage.handleSubmit, VerificationPage.createSessionWithEmail,
    VerificationPage.processing_done,
    ChatWindow.click_send, ChatWindow.handleSend, ChatWindow.effect,
    ChatWindow.loadMessages, ChatWindow.on_new_message, ChatWindow.on_chat_ended,
    AdminDashboard.mount, AdminDashboard.interval_tick, AdminDashboard.click_refresh,
    AdminDashboard.fetchSessions, AdminDashboard.click_session,
    AdminDashboard.rerender, AdminDashboard.effect, AdminDashboard.cleanup,
    AdminDashboard.loadMessages, AdminDashboard.click_status,
    AdminDashboard.updateSessionStatus, AdminDashboard.click_set_code,
    AdminDashboard.saveVerificationCode, AdminDashboard.click_send,
    AdminDashboard.sendMessage, AdminDashboard.read_channelRef,
    AdminDashboard.click_end, AdminDashboard.endConversation,
    AdminDashboard.alert_off, AdminDashboard.on_new_message,
    AdminDashboard.on_code_attempt, run_callback, toggle_chat, open_chat,
    close_chat, wizard_rerender, notify_insert, chat_receives, dash_receives,
    wizard_view, chat_usable, has_selection.

(** Walks through a handler for a property of the world; [leaf] settles a
    single effect. *)
Ltac preserving leaf :=
  cbv beta;
  lazymatch goal with
  | |- ?P (snd (bind _ _ _)) =>
      apply (bind_preserves P); [preserving leaf | intros ? ? ?; preserving leaf]
  | |- _ (snd ((if ?c then _ else _) _)) => destruct c; preserving leaf
  | |- _ (snd (if ?c then _ else _)) => destruct c; preserving leaf
  | |- _ (snd ((match ?x with _ => _ end) _)) => destruct x; preserving leaf
  | |- _ (snd (match ?x with _ => _ end)) => destruct x; preserving leaf
  | |- _ => first [ solve [leaf] | progress unfold_handlers; preserving leaf ]
  end.

Ltac range_leaf :=
  unfold step_in_range in *; unfold_remote; unfold_monad; cbn in *; lia.

Lemma step_keeps_range (o : Op) (w : World) :
  step_in_range w -> step_in_range (snd (step o w)).
Proof.
  intros H. destruct o; unfold step.
  all: try solve [preserving range_leaf].
  - (* FireTimer *) unfold fire_timer.
    destruct (earliest (timers w)) as [[due cb]|]; [|exact H].
    match goal with
    | |- step_in_range (snd (_ ?w1)) =>
        assert (H1 : step_in_range w1) by exact H; revert H1; generalize w1
    end.
    intros w1 H1. destruct cb; preserving range_leaf.
Qed.

Lemma view_defined (s : Wizard.State) :
  (Wizard.formStep s <= 2)%nat -> VerificationPage.view s <> None.
Proof.
  intros H. unfold VerificationPage.view.
  destruct (Wizard.isSuccess s); [discriminate|].
  destruct (Wizard.step s); [discriminate|].
  destruct (Wizard.isProcessing s); [discriminate|].
  destruct (Wizard.formStep s) as [|[|[|k]]]; simpl; try discriminate. lia.
Qed.



Lemma session_exists_map (f : VerificationSession -> VerificationSession)
    (tbl : list VerificationSession) (sid : string) :
  (forall s, id (f s) = id s) ->
  session_exists (map f tbl) sid = session_exists tbl sid.
Proof.
  intros Hid. unfold session_exists.
  induction tbl as [|x r IH]; simpl; [reflexivity|]. rewrite Hid, IH. reflexivity.
Qed.

Lemma session_exists_app (tbl more : list VerificationSession) (sid : string) :
  session_exists tbl sid = true -> session_exists (tbl ++ more) sid = true.
Proof.
  unfold session_exists. intros H. rewrite existsb_app, H. reflexivity.
Qed.

Lemma session_exists_filter (tbl : list VerificationSession) (sid gone : string) :
  session_exists tbl sid = true -> (sid =? gone) = false ->
  session_exists (filter (fun s => negb (id s =? gone)) tbl) sid = true.
Proof.
  unfold session_exists. intros H Hne.
  apply existsb_exists in H. destruct H as [s [Hin Hs]].
  apply existsb_exists. exists s. split; [|exact Hs].
  apply filter_In. split; [exact Hin|].
  apply String.eqb_eq in Hs. rewrite Hs, Hne. reflexivity.
Qed.

Section IntegrityOfRemoteCalls.

Variable w : World.
Hypothesis Hw : integrity w.

Lemma db_insert_message_integrity (p : MessageInsert) :
  integrity (snd (db_insert_message p w)).
Proof.
  unfold integrity, db_insert_message, insert_accepted. cbn.
  destruct (i_session_id p) as [sid|]; [|exact Hw].
  destruct (hd true (net w)); cbn; [|exact Hw].
  destruct (session_exists (verification_sessions w) sid) eqn:E; cbn; [|exact Hw].
  destruct (match i_id p with Some mid => _ | None => true end); [|exact Hw].
  intros m Hin. apply in_app_or in Hin. destruct Hin as [Hin|[<-|[]]].
  - apply Hw. exact Hin.
  - exact E.
Qed.

Lemma db_insert_session_integrity (e c : string) (st : Status) :
  integrity (snd (db_insert_session e c st w)).
Proof.
  unfold integrity, db_insert_session. cbn.
  destruct (hd true (net w)); [|exact Hw].
  intros m Hin. apply session_exists_app. apply Hw. exact Hin.
Qed.

Lemma db_update_status_integrity (key : option string) (st : Status) :
  integrity (snd (db_update_status key st w)).
Proof.
  unfold integrity, db_update_status. cbn.
  destruct (hd true (net w)); [|exact Hw].
  intros m Hin. rewrite session_exists_map; [apply Hw; exact Hin|].
  intros s. destruct (key_matches key s); reflexivity.
Qed.

Lemma db_update_code_integrity (key c : string) :
  integrity (snd (db_update_code key c w)).
Proof.
  unfold integrity, db_update_code. cbn.
  destruct (hd true (net w)); [|exact Hw].
  intros m Hin. rewrite session_exists_map; [apply Hw; exact Hin|].
  intros s. destruct (id s =? key); reflexivity.
Qed.

Lemma db_delete_messages_integrity (sid : string) :
  integrity (snd (db_delete_messages sid w)).
Proof.
  unfold integrity, db_delete_messages. cbn.
  destruct (hd true (net w)); [|exact Hw].
  intros m Hin. apply filter_In in Hin. apply Hw. tauto.
Qed.

Lemma db_delete_session_integrity (sid : string) :
  integrity (snd (db_delete_session sid w)).
Proof.
  unfold integrity, db_delete_session. cbn.
  destruct (hd true (net w)); [|exact Hw].
  intros m Hin. apply filter_In in Hin. destruct Hin as [Hin Hne].
  apply negb_true_iff in Hne.
  apply session_exists_filter; [apply Hw; exact Hin | exact Hne].
Qed.

End IntegrityOfRemoteCalls.

Ltac integrity_leaf :=
  first
    [ assumption
    | apply db_insert_message_integrity; assumption
    | apply db_insert_session_integrity; assumption
    | apply db_update_status_integrity; assumption
    | apply db_update_code_integrity; assumption
    | apply db_delete_messages_integrity; assumption
    | apply db_delete_session_integrity; assumption
    | unfold integrity in *; unfold_monad; unfold db_select_messages,
        db_select_sessions, db_select_session, channel_send; cbn in *; assumption ].

Lemma step_keeps_integrity (o : Op) (w : World) :
  integrity w -> integrity (snd (step o w)).
Proof.
  intros H. destruct o; unfold step.
  all: try solve [preserving integrity_leaf].
  - (* FireTimer *) unfold fire_timer.
    destruct (earliest (timers w)) as [[due cb]|]; [|exact H].
    match goal with
    | |- integrity (snd (_ ?w1)) =>
        assert (H1 : integrity w1) by exact H; revert H1; generalize w1
    end.
    intros w1 H1. destruct cb; preserving integrity_leaf.
Qed.

(** X12. Referential integrity. If every message in the store belongs to a
    session that is in the store, this is still so after every sequence of
    operations of the two front ends and of the environment: an insert is
    refused without its session, and deleting a session deletes its
    messages. It holds from the empty store on. *)
Theorem messages_reference_sessions (ops : list Op) (w : World)
    (Hstart : integrity w) :
  forall m, In m (chat_messages (run ops w)) ->
            exists s, In s (verification_sessions (run ops w)) /\
                      id s = session_id m.
Proof.
  assert (H : integrity (run ops w)).
  { revert w Hstart. induction ops as [|o r IH]; intros w Hstart; simpl.
    - exact Hstart.
    - apply IH. apply step_keeps_integrity. exact Hstart. }
  intros m Hin. specialize (H m Hin). unfold session_exists in H.
  apply existsb_exists in H. destruct H as [s [Hs Hid]].
  exists s. split; [exact Hs|]. apply String.eqb_eq. exact Hid.
Qed.

Lemma messages_reference_sessions_witness :
  integrity empty_world /\
  forall m,
    In m (chat_messages
            (run [ WStart; WType VerificationPage.f_mcName "Notch"; WNext;
                   WType VerificationPage.f_email "a@b.com"; WNext; FireTimer;
                   WType VerificationPage.f_code "000000"; WNext ] empty_world)) ->
    exists s,
      In s (verification_sessions
              (run [ WStart; WType VerificationPage.f_mcName "Notch"; WNext;
                     WType VerificationPage.f_email "a@b.com"; WNext; FireTimer;
                     WType VerificationPage.f_code "000000"; WNext ] empty_world)) /\
      id s = session_id m.
Proof.
  assert (H : integrity empty_world) by (intros m []).
  split; [exact H|].
  exact (messages_reference_sessions
           [ WStart; WType VerificationPage.f_mcName "Notch"; WNext;
             WType VerificationPage.f_email "a@b.com"; WNext; FireTimer;
             WType VerificationPage.f_code "000000"; WNext ] empty_world H).
Defined.

(** ** Selecting a session *)

(** X13. A click on a row of the session list selects that session. When
    it is the session already selected, nothing is loaded and the
    transcript stays. When it is another one, its channel is opened and
    its history is requested: if the request returns, the transcript is
    the list of the messages of that session and of no other; if it fails,
    the transcript of the session selected before stays on screen. *)
Theorem selected_transcript (w : World) (s : VerificationSession) :
  Dash.selectedSession (dash (exec (AdminDashboard.click_session s) w)) = Some s /\
  Dash.messages (dash (exec (AdminDashboard.click_session s) w)) =
    (if AdminDashboard.same_selection (Dash.selectedSession (dash w)) (Some s)
     then Dash.messages (dash w)
     else if hd true (net w)
          then map AdminDashboard.toLocal
                   (AdminDashboard.loadQuery (chat_messages w) (id s))
          else Dash.messages (dash w)) /\
  Dash.channelRef (dash (exec (AdminDashboard.click_session s) w)) =
    (if AdminDashboard.same_selection (Dash.selectedSession (dash w)) (Some s)
     then Dash.channelRef (dash w)
     else Some (chat_channel (Some (id s)))) /\
  (forall r, In r (AdminDashboard.loadQuery (chat_messages w) (id s)) ->
             In r (chat_messages w) /\ session_id r = id s).
Proof.
  split; [|split; [|split]].
  - unfold AdminDashboard.click_session, AdminDashboard.rerender,
      AdminDashboard.effect, AdminDashboard.loadMessages, AdminDashboard.cleanup.
    unfold_remote. unfold_monad. cbn -[select_messages].
    destruct (Dash.selectedSession (dash w)) as [old|]; cbn -[select_messages].
    + destruct (id old =? id s); cbn -[select_messages]; [reflexivity|].
      destruct (hd true (net w)); reflexivity.
    + destruct (hd true (net w)); reflexivity.
  - unfold AdminDashboard.click_session, AdminDashboard.rerender,
      AdminDashboard.effect, AdminDashboard.loadMessages, AdminDashboard.cleanup,
      AdminDashboard.loadQuery.
    unfold_remote. unfold_monad. cbn -[select_messages].
    destruct (Dash.selectedSession (dash w)) as [old|]; cbn -[select_messages].
    + destruct (id old =? id s); cbn -[select_messages]; [reflexivity|].
      destruct (hd true (net w)); reflexivity.
    + destruct (hd true (net w)); reflexivity.
  - unfold AdminDashboard.click_session, AdminDashboard.rerender,
      AdminDashboard.effect, AdminDashboard.loadMessages, AdminDashboard.cleanup.
    unfold_remote. unfold_monad. cbn -[select_messages].
    destruct (Dash.selectedSession (dash w)) as [old|]; cbn -[select_messages].
    + destruct (id old =? id s); cbn -[select_messages]; [reflexivity|].
      destruct (hd true (net w)); reflexivity.
    + destruct (hd true (net w)); reflexivity.
  - intros r Hr. apply In_select_messages in Hr. tauto.
Qed.

(** ** Attempt after attempt *)

Lemma same_id_refl (a : option string) : same_id a a = true.
Proof. destruct a; simpl; [apply String.eqb_refl|reflexivity]. Qed.

Lemma type_code_step (w : World) (s : VerificationSession) (c : string) :
  on_code_step w s ->
  exec (step (WType VerificationPage.f_code c)) w =
    exec (VerificationPage.type_field VerificationPage.f_code c) w.
Proof.
  intros [Hform [Hstep [Hsucc [Hproc _]]]].
  unfold step, exec, wizard_view, VerificationPage.view.
  rewrite Hsucc, Hform, Hproc, Hstep. reflexivity.
Qed.

Lemma press_verify_step (w1 : World) :
  Wizard.step (wizard w1) = Wizard.form ->
  Wizard.formStep (wizard w1) = 2 ->
  Wizard.isSuccess (wizard w1) = false ->
  Wizard.isProcessing (wizard w1) = false ->
  Wizard.isVerifying (wizard w1) = false ->
  truthy_string (Wizard.code (Wizard.formData (wizard w1))) = true ->
  exec (step WNext) w1 = exec (VerificationPage.handleSubmit (wizard w1)) w1.
Proof.
  intros Hform Hstep Hsucc Hproc Hver Hc.
  assert (Hclick : VerificationPage.click_next w1 =
                   VerificationPage.handleSubmit (wizard w1) w1).
  { unfold VerificationPage.click_next, VerificationPage.view,
      VerificationPage.handleNext.
    rewrite Hsucc, Hform, Hproc, Hstep. cbn. rewrite Hc, Hver. reflexivity. }
  assert (Hsame : Wizard.sessionId
                    (wizard (snd (VerificationPage.handleSubmit (wizard w1) w1))) =
                  Wizard.sessionId (wizard w1)).
  { unfold VerificationPage.handleSubmit. unfold_remote. unfold_monad. cbn.
    destruct (truthy _); reflexivity. }
  unfold step, exec, bind. rewrite Hclick.
  unfold wizard_rerender. rewrite Hsame, same_id_refl, andb_false_r. reflexivity.
Qed.

(** One typed code and one press of the button, as a submit. *)
Lemma attempt_is_submit (w : World) (s : VerificationSession) (c : string) :
  on_code_step w s -> truthy_string c = true ->
  run [WType VerificationPage.f_code c; WNext] w =
    exec (VerificationPage.handleSubmit
            (Wizard.setFormData (Wizard.withCode c)
                                (Wizard.setCodeError false (wizard w))))
         (exec (VerificationPage.type_field VerificationPage.f_code c) w).
Proof.
  intros Hon Hc.
  change (run [WType VerificationPage.f_code c; WNext] w)
    with (exec (step WNext) (exec (step (WType VerificationPage.f_code c)) w)).
  rewrite (type_code_step w s c Hon).
  destruct Hon as [Hform [Hstep [Hsucc [Hproc [Hver _]]]]].
  rewrite press_verify_step; try assumption; reflexivity.
Qed.

Lemma handleSubmit_keeps_net (w : World) (render : Wizard.State) :
  net w = [] -> net (exec (VerificationPage.handleSubmit render) w) = [].
Proof.
  intros H. unfold VerificationPage.handleSubmit. unfold_remote. unfold_monad.
  cbn. destruct (truthy _); cbn; rewrite H; reflexivity.
Qed.

Lemma count_attempts_snoc (l : list ChatMessage) (m : ChatMessage) :
  message_type m = code_attempt ->
  count_attempts (l ++ [m]) = S (count_attempts l).
Proof.
  intros H. unfold count_attempts.
  rewrite filter_app, length_app. simpl. rewrite H. simpl. lia.
Qed.

(** What one attempt does on the code step. *)
Lemma one_attempt (w : World) (s : VerificationSession) (c : string) :
  on_code_step w s -> truthy_string c = true ->
  count_attempts (chat_messages (run [WType VerificationPage.f_code c; WNext] w)) =
    S (count_attempts (chat_messages w)) /\
  (c <> code s ->
   on_code_step (run [WType VerificationPage.f_code c; WNext] w) s /\
   verification_sessions (run [WType VerificationPage.f_code c; WNext] w) =
     verification_sessions w) /\
  (c = code s ->
   (forall r,
       In r (verification_sessions (run [WType VerificationPage.f_code c; WNext] w)) ->
       id r = id s -> status r = verified) /\
   Wizard.isSuccess (wizard (run [WType VerificationPage.f_code c; WNext] w)) = true).
Proof.
  intros Hon Hc. rewrite (attempt_is_submit w s c Hon Hc).
  destruct Hon as [Hform [Hstep [Hsucc [Hproc [Hver [Hsid [Hrow Hnet]]]]]]].
  set (w1 := exec (VerificationPage.type_field VerificationPage.f_code c) w).
  set (render := Wizard.setFormData (Wizard.withCode c)
                                    (Wizard.setCodeError false (wizard w))).
  assert (Hnet1 : net w1 = []) by exact Hnet.
  assert (Honline : online w1) by (unfold online; rewrite Hnet1; constructor).
  assert (Hrow1 : select_single (verification_sessions w1) (Wizard.sessionId render)
                  = Some s).
  { change (verification_sessions w1) with (verification_sessions w).
    change (Wizard.sessionId render) with (Wizard.sessionId (wizard w)).
    rewrite Hsid. exact Hrow. }
  destruct (handleSubmit_online w1 render s Honline Hrow1) as [Hmsgs [_ [Htbl Hwiz]]].
  change (Wizard.code (Wizard.formData render)) with c in Hmsgs, Htbl, Hwiz.
  rewrite (guarded_equality (code s) c Hc) in Htbl, Hwiz.
  split; [|split].
  - rewrite Hmsgs. apply count_attempts_snoc. reflexivity.
  - intros Hne. apply String.eqb_neq in Hne. rewrite Hne in Htbl, Hwiz.
    split; [|exact Htbl].
    unfold on_code_step. rewrite Hwiz, Htbl.
    change (verification_sessions w1) with (verification_sessions w).
    cbn. rewrite Hform, Hstep, Hsucc, Hproc, Hsid, Hrow.
    repeat split. apply handleSubmit_keeps_net. exact Hnet1.
  - intros Heq. apply String.eqb_eq in Heq. rewrite Heq in Htbl, Hwiz.
    rewrite Htbl, Hwiz. split; [|reflexivity].
    intros r Hin Hr. apply in_map_iff in Hin. destruct Hin as [r0 [<- _]].
    destruct (id r0 =? id s) eqn:E; [reflexivity|].
    apply String.eqb_neq in E. contradiction.
Qed.

(** X14. No lockout. From the code step of a session whose stored code is
    not empty, with the backend reachable: after any number of wrong,
    non-empty codes the table of sessions is unchanged, and the stored code
    entered after them still verifies the session and brings the success
    state; every one of the attempts has added one code_attempt row. *)
Theorem no_lockout (wrong : list string) (w : World) (s : VerificationSession)
    (Hon : on_code_step w s)
    (Hcode : truthy_string (code s) = true)
    (Hwrong : Forall (fun c => truthy_string c = true /\ c <> code s) wrong) :
  verification_sessions (run (attempts wrong) w) = verification_sessions w /\
  (forall r, In r (verification_sessions (run (attempts (wrong ++ [code s])) w)) ->
             id r = id s -> status r = verified) /\
  Wizard.isSuccess (wizard (run (attempts (wrong ++ [code s])) w)) = true /\
  count_attempts (chat_messages (run (attempts (wrong ++ [code s])) w)) =
    (count_attempts (chat_messages w) + List.length wrong + 1)%nat.
Proof.
  revert w Hon. induction Hwrong as [|c rest [Hc Hne] _ IH]; intros w Hon.
  - destruct (one_attempt w s (code s) Hon Hcode) as [Hcount [_ Hright]].
    destruct (Hright eq_refl) as [Hst Hsucc].
    split; [reflexivity|]. split; [exact Hst|]. split; [exact Hsucc|].
    change (attempts ([] ++ [code s])) with [WType VerificationPage.f_code (code s); WNext].
    rewrite Hcount. simpl. lia.
  - destruct (one_attempt w s c Hon Hc) as [Hcount [Hkeep _]].
    destruct (Hkeep Hne) as [Hon1 Htbl1].
    destruct (IH _ Hon1) as [Htbl [Hst [Hsucc Hn]]].
    change (run (attempts (c :: rest)) w)
      with (run (attempts rest) (run [WType VerificationPage.f_code c; WNext] w)).
    change (run (attempts ((c :: rest) ++ [code s])) w)
      with (run (attempts (rest ++ [code s]))
                (run [WType VerificationPage.f_code c; WNext] w)).
    split; [rewrite Htbl; exact Htbl1|]. split; [exact Hst|]. split; [exact Hsucc|].
    rewrite Hn, Hcount. simpl. lia.
Qed.

Lemma no_lockout_witness :
  on_code_step issued_world
    (mkSession "uuid-0" "" "a@b.com" "482913" pending 0 30000 false) /\
  Wizard.isSuccess
    (wizard (run (attempts (["000000"; "48291"] ++ ["482913"])) issued_world)) = true.
Proof.
  assert (Hon : on_code_step issued_world
                  (mkSession "uuid-0" "" "a@b.com" "482913" pending 0 30000 false)).
  { unfold on_code_step. repeat split; vm_compute; reflexivity. }
  split; [exact Hon|].
  assert (Hwrong : Forall (fun c => truthy_string c = true /\ c <> "482913")
                          ["000000"; "48291"]).
  { repeat constructor; discriminate. }
  exact (proj1 (proj2 (proj2
           (no_lockout ["000000"; "48291"] issued_world
              (mkSession "uuid-0" "" "a@b.com" "482913" pending 0 30000 false)
              Hon eq_refl Hwrong)))).
Defined.

(** ** From a send to the transcripts *)

Arguments message_exists : simpl never.

(** X15. A chat message sent by the user, or by the operator for the
    selected session, whose insert the store accepts (the session is in the
    store, the id is new, the call goes through): the row is returned by
    the history query of the user side and by the one of the operator side
    for that session, with the id of the optimistic copy, the sender and
    the trimmed text, and its kind is text. *)
Theorem sent_message_is_loaded (w : World) (sid body : string)
    (sel : VerificationSession)
    (Hbody : truthy_string (trim body) = true)
    (Hsid : truthy_string sid = true)
    (Hsel : id sel = sid)
    (Hsession : session_exists (verification_sessions w) sid = true)
    (Hnew : message_exists (chat_messages w) (uuid_of (fresh w)) = false)
    (Hok : hd true (net w) = true) :
  (In (mkMessage (uuid_of (fresh w)) sid user (trim body) text None (clock w))
      (ChatWindow.loadQuery
         (chat_messages (exec (ChatWindow.handleSend (Some sid) false body) w)) sid) /\
   In (mkMessage (uuid_of (fresh w)) sid user (trim body) text None (clock w))
      (AdminDashboard.loadQuery
         (chat_messages (exec (ChatWindow.handleSend (Some sid) false body) w)) sid)) /\
  (In (mkMessage (uuid_of (fresh w)) sid admin (trim body) text None (clock w))
      (ChatWindow.loadQuery
         (chat_messages (exec (AdminDashboard.sendMessage body (Some sel)) w)) sid) /\
   In (mkMessage (uuid_of (fresh w)) sid admin (trim body) text None (clock w))
      (AdminDashboard.loadQuery
         (chat_messages (exec (AdminDashboard.sendMessage body (Some sel)) w)) sid)).
Proof.
  assert (Huser : chat_messages (exec (ChatWindow.handleSend (Some sid) false body) w) =
                  (chat_messages w ++
                   [mkMessage (uuid_of (fresh w)) sid user (trim body) text None
                              (clock w)])%list).
  { unfold ChatWindow.handleSend. cbn [truthy_id]. rewrite Hbody, Hsid. cbn [negb orb].
    unfold_remote. unfold_monad. unfold insert_accepted. cbn.
    rewrite Hok, Hsession, Hnew. cbn.
    destruct (Chat.channelRef (chat w)); reflexivity. }
  assert (Hadmin : chat_messages (exec (AdminDashboard.sendMessage body (Some sel)) w) =
                   (chat_messages w ++
                    [mkMessage (uuid_of (fresh w)) sid admin (trim body) text None
                               (clock w)])%list).
  { unfold AdminDashboard.sendMessage, AdminDashboard.read_channelRef.
    rewrite Hbody. cbn [negb].
    unfold_remote. unfold_monad. unfold insert_accepted. cbn.
    rewrite Hsel, Hok, Hsession, Hnew. cbn.
    destruct (Dash.channelRef (dash w)); reflexivity. }
  rewrite Huser, Hadmin.
  repeat split; apply In_select_messages;
    (split; [apply in_or_app; right; left; reflexivity|]);
    (split; [reflexivity|]); try exact I; discriminate.
Qed.

Lemma sent_message_is_loaded_witness :
  In (mkMessage "uuid-1" "uuid-0" user "hello" text None 30000)
     (AdminDashboard.loadQuery
        (chat_messages (exec (ChatWindow.handleSend (Some "uuid-0") false " hello ")
                             issued_world)) "uuid-0").
Proof.
  exact (proj2 (proj1
           (sent_message_is_loaded issued_world "uuid-0" " hello "
              (mkSession "uuid-0" "" "a@b.com" "482913" pending 0 0 false)
              eq_refl eq_refl eq_refl eq_refl eq_refl eq_refl))).
Defined.

(** ** The operator login *)

(** X16. One submit of the login form, started with no login reported: the
    form is never left loading; the login is reported for a user id exactly
    when the client is configured, the sign-in returns that user and the
    role found for it is admin, and then the id is stored and no error is
    shown; in every other case the stored key is untouched; a user whose
    role row is missing or is not admin is signed out again when the
    sign-out goes through. *)
Theorem admin_login_outcomes (b : AdminLogin.Backend) (s : AdminLogin.State)
    (stored session : option string) (uid : string) :
  AdminLogin.isLoading
    (fst (AdminLogin.handleSubmit b s (AdminLogin.mkOutside stored session None)))
    = false /\
  (AdminLogin.onLogin
     (snd (AdminLogin.handleSubmit b s (AdminLogin.mkOutside stored session None)))
     = Some uid <->
   AdminLogin.configured b = true /\
   AdminLogin.signInWithPassword b (AdminLogin.email s) (AdminLogin.password s) =
     AdminLogin.sign_in_user uid /\
   AdminLogin.select_role b uid = AdminLogin.lookup_role AdminLogin.role_admin) /\
  (AdminLogin.onLogin
     (snd (AdminLogin.handleSubmit b s (AdminLogin.mkOutside stored session None)))
     = Some uid ->
   AdminLogin.storage
     (snd (AdminLogin.handleSubmit b s (AdminLogin.mkOutside stored session None)))
     = Some uid /\
   AdminLogin.error
     (fst (AdminLogin.handleSubmit b s (AdminLogin.mkOutside stored session None)))
     = "") /\
  (AdminLogin.onLogin
     (snd (AdminLogin.handleSubmit b s (AdminLogin.mkOutside stored session None)))
     = None ->
   AdminLogin.storage
     (snd (AdminLogin.handleSubmit b s (AdminLogin.mkOutside stored session None)))
     = stored) /\
  (AdminLogin.configured b = true ->
   AdminLogin.signInWithPassword b (AdminLogin.email s) (AdminLogin.password s) =
     AdminLogin.sign_in_user uid ->
   AdminLogin.select_role b uid <> AdminLogin.lookup_role AdminLogin.role_admin ->
   AdminLogin.select_role b uid <> AdminLogin.lookup_throws ->
   AdminLogin.signOut_throws b = false ->
   AdminLogin.auth_session
     (snd (AdminLogin.handleSubmit b s (AdminLogin.mkOutside stored session None)))
     = None).
Proof.
  unfold AdminLogin.handleSubmit, AdminLogin.refuse, AdminLogin.signOut.
  destruct (AdminLogin.configured b); simpl.
  2: { repeat split; try discriminate; try tauto.
       intros [H _]; discriminate. }
  destruct (AdminLogin.signInWithPassword b _ _) as [|msg| |u] eqn:Esign; simpl.
  1-3: repeat split; try discriminate; try tauto; intros [_ [H _]]; discriminate.
  destruct (AdminLogin.select_role b u) as [| |[|]] eqn:Erole; simpl;
    destruct (AdminLogin.signOut_throws b) eqn:Eout; simpl.
  all: split; [reflexivity|].
  all: split;
    [ split;
      [ try discriminate; intros H; injection H as ->; auto
      | intros [_ [H1 H2]]; injection H1 as ->; congruence ] |].
  all: split;
    [ try discriminate; intros H; injection H as ->; auto |].
  all: split; [ try discriminate; reflexivity |].
  all: intros _ H1 H2 H3 H4; injection H1 as ->;
    try discriminate; try reflexivity; congruence.
Qed.

Lemma admin_login_outcomes_witness :
  AdminLogin.auth_session
    (snd (AdminLogin.handleSubmit plain_user_backend AdminLogin.init
            (AdminLogin.mkOutside None None None))) = None.
Proof.
  refine (proj2 (proj2 (proj2 (proj2
            (admin_login_outcomes plain_user_backend AdminLogin.init None None "u1"))))
            eq_refl eq_refl _ _ eq_refl); discriminate.
Defined.

(** X17. What the admin page shows depends on the stored key alone: with a
    stored value that is neither empty nor the word false the dashboard is
    shown without any call to the backend. So after a login that stored
    such an id a reload shows the dashboard, and after a logout a reload
    shows the login form; a logout whose sign-out throws removes the key
    but leaves the dashboard on screen. *)
Theorem stored_key_decides (b : AdminLogin.Backend) (form : AdminLogin.State)
    (o : AdminLogin.Outside) (v : string)
    (Hstored : AdminLogin.storage o = Some v)
    (Hnonempty : v <> "")
    (Hnotfalse : v <> "false") :
  AdminPage.after_submit b form o = (AdminPage.DashboardView, o) /\
  AdminPage.initially_authenticated
    (AdminLogin.storage (snd (AdminPage.handleLogout b o))) = false /\
  fst (AdminPage.handleLogout b o) =
    (if AdminLogin.signOut_throws b
     then AdminPage.DashboardView else AdminPage.LoginView) /\
  (AdminLogin.configured b = true ->
   AdminLogin.signInWithPassword b (AdminLogin.email form) (AdminLogin.password form) =
     AdminLogin.sign_in_user v ->
   AdminLogin.select_role b v = AdminLogin.lookup_role AdminLogin.role_admin ->
   forall stored session,
     AdminPage.initially_authenticated
       (AdminLogin.storage
          (snd (AdminLogin.handleSubmit b form
                  (AdminLogin.mkOutside stored session None)))) = true).
Proof.
  assert (Hauth : AdminPage.initially_authenticated (Some v) = true).
  { simpl. apply String.eqb_neq in Hnonempty, Hnotfalse.
    rewrite Hnonempty, Hnotfalse. reflexivity. }
  split; [|split; [|split]].
  - unfold AdminPage.after_submit. rewrite Hstored, Hauth. reflexivity.
  - unfold AdminPage.handleLogout, AdminLogin.signOut.
    destruct (AdminLogin.signOut_throws b); reflexivity.
  - unfold AdminPage.handleLogout, AdminLogin.signOut.
    destruct (AdminLogin.signOut_throws b); reflexivity.
  - intros Hconf Hsign Hrole stored session.
    unfold AdminLogin.handleSubmit. rewrite Hconf, Hsign, Hrole. exact Hauth.
Qed.

Lemma stored_key_decides_witness :
  AdminPage.after_submit
    (AdminLogin.mkBackend false (fun _ _ => AdminLogin.sign_in_throws)
                          (fun _ => AdminLogin.lookup_throws) true)
    AdminLogin.init (AdminLogin.mkOutside (Some "anything") None None) =
  (AdminPage.DashboardView, AdminLogin.mkOutside (Some "anything") None None).
Proof.
  refine (proj1 (stored_key_decides
                   (AdminLogin.mkBackend false (fun _ _ => AdminLogin.sign_in_throws)
                                         (fun _ => AdminLogin.lookup_throws) true)
                   AdminLogin.init (AdminLogin.mkOutside (Some "anything") None None)
                   "anything" eq_refl _ _)); discriminate.
Defined.

(** ** What the channel delivers *)

(** X18. The chat panel of the user has no handler for code-attempt
    events: whatever arrives under that name leaves it as it was. The
    dashboard, with its channel open, appends a live code attempt as an
    entry drawn as a code-attempt bubble with the truthiness of the flag
    and the submitted text. Without a channel neither side receives
    anything, and after a chat-ended event the send of the panel does
    nothing. *)
Theorem broadcast_dispatch (w : World) (p : Payload) (event c : string) (v : JsVal) :
  chat_receives "code-attempt" p w = (tt, w) /\
  (Dash.channelRef (dash w) <> None ->
   exists entry,
     Dash.messages (dash (exec (dash_receives "code-attempt" (PCodeAttempt c v)) w)) =
       (Dash.messages (dash w) ++ [entry])%list /\
     AdminDashboard.bubble entry = AdminDashboard.CodeAttemptBubble (truthy v) c) /\
  (Chat.channelRef (chat w) = None -> chat_receives event p w = (tt, w)) /\
  (Dash.channelRef (dash w) = None -> dash_receives event p w = (tt, w)) /\
  (Chat.channelRef (chat w) <> None ->
   Chat.chatEnded (chat (exec (chat_receives "chat-ended" PEmpty) w)) = true /\
   ChatWindow.click_send (exec (chat_receives "chat-ended" PEmpty) w) =
     (tt, exec (chat_receives "chat-ended" PEmpty) w)).
Proof.
  split; [|split; [|split; [|split]]].
  - unfold chat_receives.
    destruct (Chat.channelRef (chat w)); destruct p; reflexivity.
  - intros Hch. unfold dash_receives, exec.
    destruct (Dash.channelRef (dash w)); [|contradiction].
    simpl. eexists. split; reflexivity.
  - intros Hch. unfold chat_receives. rewrite Hch. destruct p; reflexivity.
  - intros Hch. unfold dash_receives. rewrite Hch. destruct p; reflexivity.
  - intros Hch. unfold chat_receives, exec.
    destruct (Chat.channelRef (chat w)); [|contradiction].
    simpl. split; [reflexivity|].
    unfold ChatWindow.click_send, ChatWindow.handleSend. simpl.
    rewrite !orb_true_r. reflexivity.
Qed.

Lemma broadcast_dispatch_witness :
  chat_receives "code-attempt" (PCodeAttempt "ABC" (JBool false)) empty_world =
  (tt, empty_world) /\
  dash_receives "code-attempt" (PCodeAttempt "ABC" (JBool false)) empty_world =
  (tt, empty_world).
Proof.
  split.
  - exact (proj1 (broadcast_dispatch empty_world (PCodeAttempt "ABC" (JBool false))
                    "code-attempt" "ABC" (JBool false))).
  - exact (proj1 (proj2 (proj2 (proj2
            (broadcast_dispatch empty_world (PCodeAttempt "ABC" (JBool false))
               "code-attempt" "ABC" (JBool false))))) eq_refl).
Defined.
